(** * NOPE Node SDK: webhook verification and client error mapping

    A shallow embedding of [src/webhook.ts] ([Webhook.verify],
    [Webhook.sign]), [src/client.ts] ([NopeClient.evaluate],
    [NopeClient.screen], [request], [handleResponse]) and
    [src/errors.ts], together with the properties of the SDK
    specification that concern them.

    Conventions of the embedding.
    - A JavaScript string is a Rocq [string]; each character stands for
      one UTF-16 code unit in the range 0..255.
    - An integral JavaScript number is a [Z], exactly.  The embedding
      is the language on the safe integers, those of absolute value
      below 2^53 ([safeInteger]): there the doubles are the integers,
      sums and differences that stay in the range are exact, and a
      number prints as its decimal digits.  Outside that range a double
      is rounded and prints in another form; a property that depends on
      the value or on the digits of a number carries the range as a
      hypothesis.  The clock [Math.floor(Date.now() / 1000)] is an
      explicit argument [now]; every clock of the platform is a safe
      integer.
    - A call either returns or throws: [completion A].  A call of the
      client also extends the log of the requests handed to [fetch].
    - The functions of the language that the SDK calls ([parseInt],
      [parseFloat], [Buffer.from], [timingSafeEqual], ...) are written
      out in the module [JS].
    - The functions of the host that the SDK calls but that depend on
      all of JavaScript's values or on the network ([JSON.stringify],
      [JSON.parse], [String], [createHmac], [fetch]) are the fields of
      the class [Host]; the SDK code is written once, over any host.  [Node.host]
      is a concrete host, with HMAC-SHA256 and a JSON reader and
      printer written out; the properties are proved for every host and
      shown at work on that one. *)

From Stdlib Require Import ZArith List String Ascii Bool Lia.
From Stdlib Require Import Numbers.DecimalString Numbers.DecimalPos.
From Stdlib Require Import QArith Qcanon.
Import ListNotations.

Open Scope string_scope.
Open Scope Z_scope.

(** ** JavaScript values the SDK manipulates *)

(** A JavaScript [number] that need not be integral (only
    [retryAfter] is one): [NaN], an infinity, or an exact rational in
    lowest terms. *)
Inductive number : Type :=
| NaN
| Infinity (negative : bool)
| Num (q : Q).

(** A value that the host throws or rejects with: an [Error] object
    (it has a [name] and a [message]) or some other value. *)
Inductive rejection : Type :=
| ErrorObject (name message : string)
| NotAnError.

(** The exceptions that can leave the SDK.  The first five are the
    host's, the others are the classes of [errors.ts] and
    [webhook.ts]; a constructor's arguments are the fields the class
    stores.  [Uncaught] is a value thrown inside the host (by a
    [toJSON] method or a getter during [JSON.stringify], by the reading
    of a response body) that the SDK passes on as it is. *)
Inductive exn : Type :=
| Error (message : string)
| SyntaxError
| TypeError
| RangeError
| Uncaught (thrown : rejection)
| WebhookSignatureError (message : string)
| NopeError (message : string) (statusCode : option Z) (responseBody : option string)
| NopeAuthError (message : string) (responseBody : option string)
| NopeRateLimitError (message : string) (retryAfter : option number)
                     (responseBody : option string)
| NopeValidationError (message : string) (responseBody : option string)
| NopeServerError (message : string) (statusCode : Z) (responseBody : option string)
| NopeConnectionError (message : string) (originalError : option rejection).

Inductive completion (A : Type) : Type :=
| Return (a : A)
| Throw (e : exn).

Arguments Return {A} a.
Arguments Throw {A} e.

Definition bind {A B : Type} (c : completion A) (k : A -> completion B)
  : completion B :=
  match c with
  | Return a => k a
  | Throw e => Throw e
  end.

Notation "x <- c ;; k" := (bind c (fun x => k))
  (at level 61, c at next level, right associativity).
Notation "c ;;; k" := (bind c (fun _ => k))
  (at level 61, right associativity).

(** [if (cond) throw e;] *)
Definition throw_if (cond : bool) (e : exn) : completion unit :=
  if cond then Throw e else Return tt.

(** [try { c } catch { handler }] *)
Definition try_catch {A : Type} (c : completion A) (handler : A) : A :=
  match c with
  | Return a => a
  | Throw _ => handler
  end.

Module JS.

(** The code unit of a character. *)
Definition code (c : ascii) : Z := Z.of_N (N_of_ascii c).

(** [!s] for a string: only the empty string is falsy. *)
Definition falsy (s : string) : bool :=
  match s with
  | EmptyString => true
  | String _ _ => false
  end.

(** [String(n)] and [`${n}`] for an integral number: its decimal
    digits.  This is what the language prints for a safe integer; an
    integral double from 2^53 on prints with zeros for its last digits
    and from 1e21 on with an exponent. *)
Definition toString (n : Z) : string := NilEmpty.string_of_int (Z.to_int n).

(** [StrWhiteSpaceChar] (white space and line terminators) among the
    code units 0..255: TAB, LF, VT, FF, CR, SP and NBSP. *)
Definition isWhiteSpace (c : ascii) : bool :=
  let n := code c in
  ((9 <=? n) && (n <=? 13)) || (n =? 32) || (n =? 160).

Fixpoint trimStart (s : string) : string :=
  match s with
  | EmptyString => EmptyString
  | String c rest => if isWhiteSpace c then trimStart rest else s
  end.

Definition digit (c : ascii) : option Z :=
  let n := code c in
  if (48 <=? n) && (n <=? 57) then Some (n - 48) else None.

(** The value of the longest prefix of decimal digits; [acc] is [None]
    until a digit has been read. *)
Fixpoint digits (s : string) (acc : option Z) : option Z :=
  match s with
  | EmptyString => acc
  | String c rest =>
      match digit c with
      | Some d =>
          digits rest (Some (10 * match acc with Some a => a | None => 0 end + d))
      | None => acc
      end
  end.

(** [parseInt(s, 10)]: leading white space is dropped, one sign is
    read, then the longest run of decimal digits; whatever follows is
    ignored.  [None] is [NaN].  The result is the integer the digits
    denote, which is the language's result when it is a safe integer;
    beyond that the language rounds it to a double (and leaves the
    digits after the 20th to the implementation). *)
Definition parseInt (s : string) : option Z :=
  let trimmed := trimStart s in
  let '(sign, rest) :=
    match trimmed with
    | String "-" rest => (-1, rest)
    | String "+" rest => (1, rest)
    | _ => (1, trimmed)
    end in
  match digits rest None with
  | Some mathInt => Some (sign * mathInt)
  | None => None
  end.

(** [s.replace(/^prefix/, '')] for a literal [prefix]. *)
Fixpoint stripPrefix (prefix s : string) : option string :=
  match prefix, s with
  | EmptyString, _ => Some s
  | String p prefix', String c s' =>
      if Ascii.eqb p c then stripPrefix prefix' s' else None
  | String _ _, EmptyString => None
  end.

Definition replacePrefix (prefix s : string) : string :=
  match stripPrefix prefix s with
  | Some rest => rest
  | None => s
  end.

(** [s.replace(/suffix$/, '')] for a one-character [suffix]. *)
Fixpoint dropLast (suffix : ascii) (s : string) : string :=
  match s with
  | EmptyString => EmptyString
  | String c EmptyString => if Ascii.eqb c suffix then EmptyString else s
  | String c rest => String c (dropLast suffix rest)
  end.

(** The longest prefix of decimal digits of [s]: its value, how many
    digits it has, and what follows it. *)
Fixpoint readDigits (s : string) (value : Z) (count : Z) : Z * Z * string :=
  match s with
  | EmptyString => (value, count, s)
  | String c rest =>
      match digit c with
      | Some d => readDigits rest (10 * value + d) (count + 1)
      | None => (value, count, s)
      end
  end.

(** [mantissa * 10 ^ exponent], in lowest terms. *)
Definition scale10 (mantissa exponent : Z) : Q :=
  if 0 <=? exponent then Qred (inject_Z (mantissa * 10 ^ exponent))
  else Qred (Qmake mantissa (Z.to_pos (10 ^ (- exponent)))).

(** The [ExponentPart] at the head of [s], if there is one: [e] or
    [E], a sign, at least one digit. *)
Definition readExponent (s : string) : Z :=
  match s with
  | String c rest =>
      if Ascii.eqb c "e" || Ascii.eqb c "E" then
        let '(sign, rest) :=
          match rest with
          | String "-" r => (-1, r)
          | String "+" r => (1, r)
          | _ => (1, rest)
          end in
        let '(value, count, _) := readDigits rest 0 0 in
        if 0 <? count then sign * value else 0
      else 0
  | EmptyString => 0
  end.

(** The value of the [StrUnsignedDecimalLiteral] at the head of [s],
    with its sign: digits, a fraction, an exponent. *)
Definition decimalLiteral (negative : bool) (s : string) : number :=
  let '(int, intCount, rest) := readDigits s 0 0 in
  let '(frac, fracCount, rest) :=
    match rest with
    | String "." after => readDigits after int 0
    | _ => (int, 0, rest)
    end in
  if (intCount =? 0) && (fracCount =? 0) then NaN
  else
    let mantissa := if negative then - frac else frac in
    Num (scale10 mantissa (readExponent rest - fracCount)).

(** [parseFloat(s)]: the value of the longest prefix of the trimmed
    string that is a [StrDecimalLiteral], taken exactly.  This is the
    language's result when the value is a double, as a safe integer
    is; every other value the language rounds to a double, to
    [Infinity] or to zero. *)
Definition parseFloat (s : string) : number :=
  let trimmed := trimStart s in
  let '(negative, rest) :=
    match trimmed with
    | String "-" rest => (true, rest)
    | String "+" rest => (false, rest)
    | _ => (false, trimmed)
    end in
  match stripPrefix "Infinity" rest with
  | Some _ => Infinity negative
  | None => decimalLiteral negative rest
  end.

(** [x * 1000], taken exactly: the language's product when [x] and
    the product are safe integers, rounded to a double otherwise. *)
Definition times1000 (x : number) : number :=
  match x with
  | NaN => NaN
  | Infinity negative => Infinity negative
  | Num q => Num (Qred (q * inject_Z 1000))
  end.

(** ASCII lower case, as header names are compared. *)
Definition lower (c : ascii) : ascii :=
  let n := code c in
  if (65 <=? n) && (n <=? 90) then ascii_of_N (Z.to_N (n + 32)) else c.

Fixpoint toLowerCase (s : string) : string :=
  match s with
  | EmptyString => EmptyString
  | String c rest => String (lower c) (toLowerCase rest)
  end.

(** A [Buffer]: bytes, each in 0..255. *)
Definition Buffer : Type := list Z.

(** The UTF-8 encoding of one code unit below 256. *)
Definition utf8 (c : ascii) : list Z :=
  let n := code c in
  if n <? 128 then [n]
  else [Z.lor 192 (Z.shiftr n 6); Z.lor 128 (Z.land n 63)].

(** [Buffer.from(s)]: the UTF-8 bytes of [s]. *)
Fixpoint Buffer_from (s : string) : Buffer :=
  match s with
  | EmptyString => []
  | String c rest => (utf8 c ++ Buffer_from rest)%list
  end.

Fixpoint bytes_eqb (a b : Buffer) : bool :=
  match a, b with
  | [], [] => true
  | x :: a', y :: b' => (x =? y) && bytes_eqb a' b'
  | _, _ => false
  end.

(** [new TextDecoder().decode(bytes)] on the bytes of code units below
    256; it undoes [Buffer_from]. *)
Fixpoint decode (bytes : Buffer) : string :=
  match bytes with
  | [] => EmptyString
  | b :: rest =>
      if b <? 128 then String (ascii_of_N (Z.to_N b)) (decode rest)
      else
        match rest with
        | b' :: rest' =>
            String (ascii_of_N (Z.to_N (64 * Z.land b 3 + Z.land b' 63)))
                   (decode rest')
        | [] => EmptyString
        end
  end.

(** [crypto.timingSafeEqual(a, b)]: throws a [RangeError] when the
    byte lengths differ. *)
Definition timingSafeEqual (a b : Buffer) : completion bool :=
  if (List.length a =? List.length b)%nat then Return (bytes_eqb a b)
  else Throw RangeError.

End JS.

(** ** The host *)

(** What [JSON.stringify] does with a value: it returns a text or
    [undefined], it throws its [TypeError] for a value it cannot
    serialize (a [BigInt], a cycle), or a [toJSON] method or a getter
    of the value throws and [JSON.stringify] passes that on (as it does
    the [RangeError] of a nesting that is too deep). *)
Inductive stringified : Type :=
| Text (s : string)
| Undefined
| Unserializable (message : string)
| Raises (thrown : rejection).

(** A response whose body has been read: [text] is what
    [await response.text()] gives. *)
Record Response : Type := mkResponse {
  status : Z;
  headers : list (string * string);
  text : string
}.

(** The outcome of one [fetch] call: a response whose body can be read,
    a response whose [text()] rejects, or a rejection of [fetch]
    itself. *)
Inductive fetched : Type :=
| Resolved (response : Response)
| Unreadable (reason : rejection)
| Rejected (reason : rejection).

Record Request : Type := mkRequest {
  url : string;
  method : string;
  requestHeaders : list (string * string);
  body : option string
}.

Class Host : Type := {
  (** any JavaScript value *)
  JsValue : Type;
  (** the string [s] as a value *)
  ofString : string -> JsValue;
  (** the object literal with the given properties, in order *)
  ofProperties : list (string * JsValue) -> JsValue;
  (** [JSON.stringify(v)] *)
  JSON_stringify : JsValue -> stringified;
  (** [JSON.parse(s)]; [None] is a [SyntaxError] *)
  JSON_parse : string -> option JsValue;
  (** [v.error] as [handleResponse] reads it: [None] when the property
      is [undefined] or [null], and when [v] is [null], where the
      access throws inside the [try] *)
  errorProperty : JsValue -> option JsValue;
  (** [String(v)], the conversion that [new Error(v)] applies to its
      message; [None] is the [TypeError] of a value that cannot be
      converted to a primitive *)
  ToString : JsValue -> option string;
  (** [createHmac('sha256', key).update(message).digest('hex')] *)
  hmacSha256Hex : string -> string -> string;
  (** the network: what [fetch] does with a request *)
  fetch : Request -> fetched
}.

(** ** webhook.ts *)

Section Webhook.

Context {host : Host}.

(** [payload: string | object] *)
Inductive Payload : Type :=
| PString (s : string)
| PObject (o : JsValue).

(** [WebhookVerifyOptions], with an integral [maxAgeSeconds]. *)
Record WebhookVerifyOptions : Type := mkOptions {
  maxAgeSeconds : option Z
}.

(** [options = {}] *)
Definition noOptions : WebhookVerifyOptions := mkOptions None.

(** [const { maxAgeSeconds = 300 } = options] *)
Definition maxAgeOf (options : WebhookVerifyOptions) : Z :=
  match maxAgeSeconds options with
  | Some m => m
  | None => 300
  end.

(** [typeof payload === 'string' ? payload : JSON.stringify(payload)] *)
Definition stringifyPayload (payload : Payload) : completion (option string) :=
  match payload with
  | PString s => Return (Some s)
  | PObject o =>
      match JSON_stringify o with
      | Text s => Return (Some s)
      | Undefined => Return None
      | Unserializable _ => Throw TypeError
      | Raises thrown => Throw (Uncaught thrown)
      end
  end.

(** [`${x}`] for [x : string | undefined] *)
Definition interpolate (x : option string) : string :=
  match x with
  | Some s => s
  | None => "undefined"
  end.

(** The two messages of the freshness block, for an age and a bound
    that print as their digits. *)
Definition tooOld (age maxAge : Z) : string :=
  "Timestamp too old: " ++ JS.toString age ++ "s ago (max: "
    ++ JS.toString maxAge ++ "s)".

Definition tooFarInFuture (age maxAge : Z) : string :=
  "Timestamp too far in future: " ++ JS.toString (- age) ++ "s ahead (max: "
    ++ JS.toString maxAge ++ "s)".

(** The freshness block of [verify] (lines 199-213). *)
Definition checkFreshness (now timestampNum maxAge : Z) : completion unit :=
  if maxAge >? 0 then
    let age := now - timestampNum in
    throw_if (age >? maxAge) (WebhookSignatureError (tooOld age maxAge)) ;;;
    throw_if (age <? - maxAge) (WebhookSignatureError (tooFarInFuture age maxAge))
  else Return tt.

(** The comparison of [verify] (lines 226-232): [isValid] after the
    [try]/[catch] around [timingSafeEqual]. *)
Definition compareSignatures (expected received : string) : completion bool :=
  Return (try_catch
            (JS.timingSafeEqual (JS.Buffer_from expected) (JS.Buffer_from received))
            false).

(** Lines 225-236: the comparison and the rejection that follows it. *)
Definition checkSignature (expected received : string) : completion unit :=
  isValid <- compareSignatures expected received ;;
  throw_if (negb isValid) (WebhookSignatureError "Signature verification failed").

(** Lines 239-240: [typeof payload === 'string' ? JSON.parse(payload) : payload] *)
Definition parsePayload (payload : Payload) : completion JsValue :=
  match payload with
  | PString s =>
      match JSON_parse s with
      | Some parsed => Return parsed
      | None => Throw SyntaxError
      end
  | PObject o => Return o
  end.

(** Lines 215-242 of [verify]: the expected signature of the canonical
    payload, its comparison with the received one, the parsed result. *)
Definition verifySignature (payload : Payload) (signature timestamp secret : string)
  : completion JsValue :=
  payloadString <- stringifyPayload payload ;;
  let message := timestamp ++ "." ++ interpolate payloadString in
  let expected := hmacSha256Hex secret message in
  let received := JS.replacePrefix "sha256=" signature in
  checkSignature expected received ;;;
  parsePayload payload.

(** [Webhook.verify(payload, signature, timestamp, secret, options)] *)
Definition verify (now : Z) (payload : Payload)
    (signature timestamp : option string) (secret : string)
    (options : WebhookVerifyOptions) : completion JsValue :=
  let maxAge := maxAgeOf options in
  match signature with
  | None | Some EmptyString =>
      Throw (WebhookSignatureError "Missing X-NOPE-Signature header")
  | Some signature =>
  match timestamp with
  | None | Some EmptyString =>
      Throw (WebhookSignatureError "Missing X-NOPE-Timestamp header")
  | Some timestamp =>
      throw_if (JS.falsy secret)
        (WebhookSignatureError "Webhook secret is required") ;;;
      timestampNum <-
        match JS.parseInt timestamp with
        | None => Throw (WebhookSignatureError "Invalid timestamp format")
        | Some n => Return n
        end ;;
      checkFreshness now timestampNum maxAge ;;;
      verifySignature payload signature timestamp secret
  end
  end.

(** The result of [Webhook.sign]. *)
Record Signed : Type := mkSigned {
  signature : string;
  timestamp : string
}.

(** [Webhook.sign(payload, secret, timestamp?)] for an integral
    [timestamp]. *)
Definition sign (now : Z) (payload : Payload) (secret : string)
    (timestamp : option Z) : completion Signed :=
  let ts := match timestamp with Some t => t | None => now end in
  payloadString <- stringifyPayload payload ;;
  let message := JS.toString ts ++ "." ++ interpolate payloadString in
  let sig := hmacSha256Hex secret message in
  Return (mkSigned ("sha256=" ++ sig) (JS.toString ts)).

End Webhook.

(** ** client.ts *)

Module Fetch.

(** [response.ok] of the Fetch standard: the status is in 200..299. *)
Definition ok (response : Response) : bool :=
  (200 <=? status response) && (status response <=? 299).

Fixpoint join (values : list string) : string :=
  match values with
  | [] => ""
  | [v] => v
  | v :: rest => v ++ ", " ++ join rest
  end.

(** [headers.get(name)]: names match without regard to case, the values
    of a repeated header are joined with a comma and a space, and an
    absent header gives [null]. *)
Definition get (headers : list (string * string)) (name : string) : option string :=
  match
    filter (fun h => String.eqb (JS.toLowerCase (fst h)) (JS.toLowerCase name)) headers
  with
  | [] => None
  | found => Some (join (map snd found))
  end.

End Fetch.

Section Client.

Context {host : Host}.

Definition DEFAULT_BASE_URL : string := "https://api.nope.net".
Definition DEFAULT_TIMEOUT : Z := 30000.

(** [NopeClientOptions] *)
Record NopeClientOptions : Type := mkClientOptions {
  optApiKey : option string;
  optBaseUrl : option string;
  optTimeout : option Z
}.

(** The fields of a [NopeClient]. *)
Record NopeClient : Type := mkClient {
  apiKey : option string;
  baseUrl : string;
  timeout : Z
}.

(** [new NopeClient(options)] *)
Definition newNopeClient (options : NopeClientOptions) : NopeClient :=
  mkClient
    (optApiKey options)
    (JS.dropLast "/"
       (match optBaseUrl options with Some u => u | None => DEFAULT_BASE_URL end))
    (match optTimeout options with Some t => t | None => DEFAULT_TIMEOUT end).

(** [EvaluateOptions]; an absent property is [None]. *)
Record EvaluateOptions : Type := mkEvaluateOptions {
  evMessages : option JsValue;
  evText : option string;
  evConfig : option JsValue;
  evUserContext : option string
}.

(** [ScreenOptions] *)
Record ScreenOptions : Type := mkScreenOptions {
  scMessages : option JsValue;
  scText : option string;
  scConfig : option JsValue
}.

(** A call of the client runs against the log of the requests handed to
    [fetch] so far and extends it. *)
Definition IO (A : Type) : Type := list Request -> completion A * list Request.

(** Lines 596-603 of [handleResponse]: [errorData.error ??
    responseText] inside the [try], [responseText] from the [catch].
    The result is the text of the response or the value of the [error]
    property, which need not be a string. *)
Definition errorMessageOf (responseText : string) : string + JsValue :=
  match JSON_parse responseText with
  | Some errorData =>
      match errorProperty errorData with
      | Some value => inr value
      | None => inl responseText
      end
  | None => inl responseText
  end.

(** The [message] that [super(message)] stores for an [errorMessage]:
    the string itself, or [String(value)]; [None] when that conversion
    throws. *)
Definition messageText (errorMessage : string + JsValue) : option string :=
  match errorMessage with
  | inl s => Some s
  | inr value => ToString value
  end.

(** [throw new C(errorMessage, ...)] for a class [C] of [errors.ts]:
    the new error is thrown, or the [TypeError] that stops its
    construction. *)
Definition throwNew {A : Type} (errorMessage : string + JsValue)
    (C : string -> exn) : completion A :=
  match messageText errorMessage with
  | Some message => Throw (C message)
  | None => Throw TypeError
  end.

(** [NopeClient.handleResponse(response)], for a response whose body
    has been read. *)
Definition handleResponse (response : Response) : completion JsValue :=
  let responseText := text response in
  if Fetch.ok response then
    match JSON_parse responseText with
    | Some parsed => Return parsed
    | None =>
        Throw (NopeError "Invalid JSON response" (Some (status response))
                 (Some responseText))
    end
  else
    let errorMessage := errorMessageOf responseText in
    if status response =? 401 then
      throwNew errorMessage (fun message => NopeAuthError message (Some responseText))
    else if status response =? 400 then
      throwNew errorMessage
        (fun message => NopeValidationError message (Some responseText))
    else if status response =? 429 then
      let retryAfter := Fetch.get (headers response) "Retry-After" in
      let retryAfterMs :=
        match retryAfter with
        | Some value =>
            if JS.falsy value then None
            else Some (JS.times1000 (JS.parseFloat value))
        | None => None
        end in
      throwNew errorMessage
        (fun message => NopeRateLimitError message retryAfterMs (Some responseText))
    else if status response >=? 500 then
      throwNew errorMessage
        (fun message =>
           NopeServerError message (status response) (Some responseText))
    else
      throwNew errorMessage
        (fun message =>
           NopeError message (Some (status response)) (Some responseText)).

(** The request [NopeClient.request] hands to [fetch]: the URL, the
    method, the headers and the serialized body. *)
Definition requestOf (client : NopeClient) (method path : string)
    (serialized : option string) : Request :=
  let url := baseUrl client ++ path in
  let headers :=
    List.app
      [("Content-Type", "application/json"); ("User-Agent", "nope-node/0.1.0")]
      match apiKey client with
      | Some key =>
          if JS.falsy key then [] else [("Authorization", "Bearer " ++ key)]
      | None => []
      end in
  mkRequest url method headers serialized.

(** The [catch] block of [request] (lines 569-579): what is thrown
    for the caught [error]. *)
Definition connectionError (client : NopeClient) (error : rejection) : exn :=
  match error with
  | ErrorObject name message =>
      if String.eqb name "AbortError" then
        NopeConnectionError
          ("Request timed out after " ++ JS.toString (timeout client) ++ "ms")
          (Some error)
      else
        NopeConnectionError
          ("Failed to connect to " ++ baseUrl client ++ ": " ++ message)
          (Some error)
  | NotAnError =>
      NopeConnectionError ("Failed to connect to " ++ baseUrl client) None
  end.

(** [NopeClient.request(method, path, body)] for a [body] that is left
    out or is an object, as [evaluate] and [screen] pass it.  The body
    is serialized inside the [try], before [fetch] is called; the timer
    that aborts the request shows as the rejection [AbortError] of the
    host's [fetch]; the promise of [handleResponse] is returned without
    [await], so what it rejects with (its errors, the rejection of
    [response.text()]) is not caught here. *)
Definition request (client : NopeClient) (method path : string)
    (body : option JsValue) : IO JsValue :=
  fun log =>
    let send (serialized : option string) :=
      let req := requestOf client method path serialized in
      let log := List.app log [req] in
      match fetch req with
      | Resolved response => (handleResponse response, log)
      | Unreadable reason => (Throw (Uncaught reason), log)
      | Rejected reason => (Throw (connectionError client reason), log)
      end in
    match body with
    | None => send None
    | Some value =>
        match JSON_stringify value with
        | Text s => send (Some s)
        | Undefined => send None
        | Unserializable message =>
            (Throw (connectionError client (ErrorObject "TypeError" message)), log)
        | Raises thrown => (Throw (connectionError client thrown), log)
        end
    end.

(** [payload.key = value] when [value !== undefined] *)
Definition property (key : string) (value : option JsValue)
  : list (string * JsValue) :=
  match value with
  | Some v => [(key, v)]
  | None => []
  end.

Definition isUndefined {A : Type} (x : option A) : bool :=
  match x with
  | Some _ => false
  | None => true
  end.

(** The request payload [evaluate] builds. *)
Definition evaluatePayload (options : EvaluateOptions) : JsValue :=
  ofProperties
    (List.concat
       [ [("config",
           match evConfig options with Some c => c | None => ofProperties [] end)];
         property "messages" (evMessages options);
         property "text" (option_map ofString (evText options));
         property "user_context" (option_map ofString (evUserContext options)) ]).

(** [NopeClient.evaluate(options)] *)
Definition evaluate (client : NopeClient) (options : EvaluateOptions) : IO JsValue :=
  fun log =>
    let messages := evMessages options in
    let text := evText options in
    if isUndefined messages && isUndefined text then
      (Throw (Error "Either 'messages' or 'text' must be provided"), log)
    else if negb (isUndefined messages) && negb (isUndefined text) then
      (Throw (Error "Only one of 'messages' or 'text' can be provided, not both"), log)
    else
      request client "POST" "/v1/evaluate" (Some (evaluatePayload options)) log.

(** The request payload [screen] builds. *)
Definition screenPayload (options : ScreenOptions) : JsValue :=
  ofProperties
    (List.concat
       [ property "messages" (scMessages options);
         property "text" (option_map ofString (scText options));
         property "config" (scConfig options) ]).

(** [NopeClient.screen(options)] *)
Definition screen (client : NopeClient) (options : ScreenOptions) : IO JsValue :=
  fun log =>
    let messages := scMessages options in
    let text := scText options in
    if isUndefined messages && isUndefined text then
      (Throw (Error "Either 'messages' or 'text' must be provided"), log)
    else if negb (isUndefined messages) && negb (isUndefined text) then
      (Throw (Error "Only one of 'messages' or 'text' can be provided, not both"), log)
    else
      request client "POST" "/v1/screen" (Some (screenPayload options)) log.

End Client.

(** ** A concrete host: Node

    HMAC-SHA256 as [node:crypto] computes it (FIPS 180-4, RFC 2104) and
    [JSON] for the strings of this embedding.  The host is Node on the
    data of the examples below: strings of code units below 256 (an
    escape above [u00FF] denotes no string here and is refused),
    object keys that are no array indices (which JavaScript lists
    first), and numbers of at most 15 significant digits.  The
    properties are proved over every [Host] and do not depend on
    it. *)

Module Crypto.

Definition word (x : Z) : Z := x mod 2 ^ 32.

Definition rotr (n x : Z) : Z :=
  Z.lor (Z.shiftr x n) (word (Z.shiftl x (32 - n))).

Definition Ch (x y z : Z) : Z :=
  Z.lxor (Z.land x y) (Z.land (Z.lxor x (2 ^ 32 - 1)) z).

Definition Maj (x y z : Z) : Z :=
  Z.lxor (Z.lxor (Z.land x y) (Z.land x z)) (Z.land y z).

Definition Sigma0 (x : Z) : Z := Z.lxor (Z.lxor (rotr 2 x) (rotr 13 x)) (rotr 22 x).
Definition Sigma1 (x : Z) : Z := Z.lxor (Z.lxor (rotr 6 x) (rotr 11 x)) (rotr 25 x).
Definition sigma0 (x : Z) : Z := Z.lxor (Z.lxor (rotr 7 x) (rotr 18 x)) (Z.shiftr x 3).
Definition sigma1 (x : Z) : Z := Z.lxor (Z.lxor (rotr 17 x) (rotr 19 x)) (Z.shiftr x 10).

Definition prime (n : Z) : bool :=
  forallb (fun d => negb (n mod Z.of_nat d =? 0)) (seq 2 (Z.to_nat n - 2)).

(** The first 64 primes: 2, 3, 5, ..., 311. *)
Definition primes : list Z := filter prime (map Z.of_nat (seq 2 310)).

(** The integer cube root of [n], one bit at a time from bit [bits]
    down; [r] is the root found so far. *)
Fixpoint root3 (bits : nat) (n r : Z) : Z :=
  match bits with
  | O => r
  | S bits' =>
      let candidate := r + 2 ^ Z.of_nat bits' in
      root3 bits' n (if candidate * candidate * candidate <=? n then candidate else r)
  end.

(** The round constants: the first 32 bits of the fractional parts of
    the cube roots of the first 64 primes. *)
Definition K : list Z :=
  Eval vm_compute in map (fun p => word (root3 40 (p * 2 ^ 96) 0)) primes.

(** The initial hash value: the first 32 bits of the fractional parts
    of the square roots of the first 8 primes. *)
Definition H0 : list Z :=
  Eval vm_compute in map (fun p => word (Z.sqrt (p * 2 ^ 64))) (firstn 8 primes).

(** Big-endian 32-bit words of a block of bytes. *)
Fixpoint words (bytes : list Z) : list Z :=
  match bytes with
  | a :: b :: c :: d :: rest =>
      (Z.shiftl a 24 + Z.shiftl b 16 + Z.shiftl c 8 + d) :: words rest
  | _ => []
  end.

Definition w (window : list Z) (i : nat) : Z := nth i window 0.

(** The 16 most recent words of the message schedule, oldest first,
    moved one step on. *)
Definition slide (window : list Z) : list Z :=
  (tl window ++
   [word (sigma1 (w window 14) + w window 9 + sigma0 (w window 1) + w window 0)])%list.

(** The rounds of the compression function, one per constant. *)
Fixpoint rounds (ks : list Z) (window state : list Z) : list Z :=
  match ks, state with
  | k :: ks', [a; b; c; d; e; f; g; h] =>
      let T1 := h + Sigma1 e + Ch e f g + k + w window 0 in
      let T2 := Sigma0 a + Maj a b c in
      rounds ks' (slide window) [word (T1 + T2); a; b; c; word (d + T1); e; f; g]
  | _, _ => state
  end.

Fixpoint addWords (xs ys : list Z) : list Z :=
  match xs, ys with
  | x :: xs', y :: ys' => word (x + y) :: addWords xs' ys'
  | _, _ => []
  end.

Definition compress (state block : list Z) : list Z :=
  addWords state (rounds K (words block) state).

Fixpoint blocks (count : nat) (bytes state : list Z) : list Z :=
  match count with
  | O => state
  | S count' => blocks count' (skipn 64 bytes) (compress state (firstn 64 bytes))
  end.

(** The [count] low bytes of [x], most significant first. *)
Fixpoint bigEndian (count : nat) (x : Z) : list Z :=
  match count with
  | O => []
  | S count' => (Z.shiftr x (8 * Z.of_nat count')) mod 256 :: bigEndian count' x
  end.

Definition pad (message : list Z) : list Z :=
  let len := Z.of_nat (List.length message) in
  let zeros := Z.to_nat ((55 - len) mod 64) in
  (message ++ [128] ++ repeat 0 zeros ++ bigEndian 8 (8 * len))%list.

Definition sha256 (message : list Z) : list Z :=
  let padded := pad message in
  flat_map (bigEndian 4) (blocks (Nat.div (List.length padded) 64) padded H0).

Definition blockSize : nat := 64.

(** HMAC of RFC 2104 over SHA-256. *)
Definition hmacSha256 (key message : list Z) : list Z :=
  let key := if (blockSize <? List.length key)%nat then sha256 key else key in
  let key := (key ++ repeat 0 (blockSize - List.length key))%list in
  let inner := sha256 (map (Z.lxor 0x36) key ++ message) in
  sha256 (map (Z.lxor 0x5c) key ++ inner).

Definition hexDigit (n : Z) : ascii :=
  ascii_of_N (Z.to_N (if n <? 10 then 48 + n else 87 + n)).

(** [digest('hex')] *)
Fixpoint hex (bytes : list Z) : string :=
  match bytes with
  | [] => ""
  | b :: rest => String (hexDigit (Z.shiftr b 4)) (String (hexDigit (Z.land b 15)) (hex rest))
  end.

End Crypto.

Module JSON.

Set Warnings "-register-all".

(** The values of the host: what JSON texts denote, and [BigInt],
    which [JSON.stringify] refuses.  A number is [mantissa * 10 ^
    exponent], exactly, with [exponent <= 0] and no trailing zero in
    the fraction. *)
Inductive value : Type :=
| VNull
| VBool (b : bool)
| VNumber (mantissa exponent : Z)
| VBigInt (n : Z)
| VString (s : string)
| VArray (items : list value)
| VObject (members : list (string * value)).

(** [object[key] = v]: an own property keeps its place, a new one goes
    last. *)
Fixpoint setProperty (members : list (string * value)) (key : string) (v : value)
  : list (string * value) :=
  match members with
  | [] => [(key, v)]
  | (k, old) :: rest =>
      if String.eqb k key then (k, v) :: rest
      else (k, old) :: setProperty rest key v
  end.

Definition object (properties : list (string * value)) : value :=
  VObject (fold_left (fun members p => setProperty members (fst p) (snd p))
             properties []).

Fixpoint getProperty (members : list (string * value)) (key : string) : option value :=
  match members with
  | [] => None
  | (k, v) :: rest => if String.eqb k key then Some v else getProperty rest key
  end.

(** *** Printing *)

Definition char (n : Z) : ascii := ascii_of_N (Z.to_N n).

(** The double quote, ["034"] in the patterns below. *)
Definition doubleQuote : ascii := "034".

(** A text written with an apostrophe for each double quote. *)
Fixpoint text (s : string) : string :=
  match s with
  | EmptyString => EmptyString
  | String c rest =>
      String (if Ascii.eqb c "'" then doubleQuote else c) (text rest)
  end.

Definition hexDigit (n : Z) : ascii :=
  char (if n <? 10 then 48 + n else 87 + n).

(** [QuoteJSONString] without the surrounding quotes. *)
Fixpoint escape (s : string) : string :=
  match s with
  | EmptyString => EmptyString
  | String c rest =>
      let n := JS.code c in
      (if n =? 34 then String "\" (String doubleQuote "")
       else if n =? 92 then "\\"
       else if n =? 8 then "\b"
       else if n =? 9 then "\t"
       else if n =? 10 then "\n"
       else if n =? 12 then "\f"
       else if n =? 13 then "\r"
       else if n <? 32 then
         "\u00" ++ String (hexDigit (Z.shiftr n 4)) (String (hexDigit (Z.land n 15)) "")
       else String c "") ++ escape rest
  end.

Definition quote (s : string) : string :=
  String doubleQuote (escape s ++ String doubleQuote "").

Fixpoint zeros (count : nat) : string :=
  match count with
  | O => ""
  | S count' => String "0" (zeros count')
  end.

(** [Number::toString] of [mantissa * 10 ^ exponent] for [exponent <=
    0], in positional notation (what JavaScript prints for a number of
    at most 15 significant digits between 1e-6 and 1e21). *)
Definition numberText (mantissa exponent : Z) : string :=
  if exponent =? 0 then JS.toString mantissa
  else
    let digits := JS.toString (Z.abs mantissa) in
    let places := Z.to_nat (- exponent) in
    let padded := zeros (S places - String.length digits) ++ digits in
    let whole := (String.length padded - places)%nat in
    (if mantissa <? 0 then "-" else "")
      ++ substring 0 whole padded ++ "." ++ substring whole places padded.

Fixpoint commas (texts : list string) : string :=
  match texts with
  | [] => ""
  | [t] => t
  | t :: rest => t ++ "," ++ commas rest
  end.

(** The text of [JSON.stringify(v)], or the message of the [TypeError]
    it throws. *)
Fixpoint print (v : value) : string + string :=
  match v with
  | VNull => inl "null"
  | VBool b => inl (if b then "true" else "false")
  | VNumber mantissa exponent => inl (numberText mantissa exponent)
  | VBigInt _ => inr "Do not know how to serialize a BigInt"
  | VString s => inl (quote s)
  | VArray items =>
      let fix printItems (items : list value) : list string + string :=
        match items with
        | [] => inl []
        | item :: rest =>
            match print item, printItems rest with
            | inl t, inl ts => inl (t :: ts)
            | inr e, _ => inr e
            | _, inr e => inr e
            end
        end in
      match printItems items with
      | inl texts => inl ("[" ++ commas texts ++ "]")
      | inr e => inr e
      end
  | VObject members =>
      let fix printMembers (members : list (string * value)) : list string + string :=
        match members with
        | [] => inl []
        | (k, item) :: rest =>
            match print item, printMembers rest with
            | inl t, inl ts => inl ((quote k ++ ":" ++ t) :: ts)
            | inr e, _ => inr e
            | _, inr e => inr e
            end
        end in
      match printMembers members with
      | inl texts => inl ("{" ++ commas texts ++ "}")
      | inr e => inr e
      end
  end.

Definition stringify (v : value) : stringified :=
  match print v with
  | inl t => Text t
  | inr message => Unserializable message
  end.

(** [String(v)], as [new Error(v)] stores its message; [None] is the
    [TypeError] of the conversion.  An object prints through
    [Object.prototype.toString] unless it has a property [toString] of
    its own, which is no function here, and then no other method gives
    a primitive; an array joins the texts of its items, the empty text
    for [null]. *)
Fixpoint ToString (v : value) : option string :=
  match v with
  | VNull => Some "null"
  | VBool b => Some (if b then "true" else "false")
  | VNumber mantissa exponent => Some (numberText mantissa exponent)
  | VBigInt n => Some (JS.toString n)
  | VString s => Some s
  | VArray items =>
      let fix join (items : list value) : option (list string) :=
        match items with
        | [] => Some []
        | item :: rest =>
            match (match item with VNull => Some "" | _ => ToString item end),
                  join rest with
            | Some t, Some ts => Some (t :: ts)
            | _, _ => None
            end
        end in
      option_map commas (join items)
  | VObject members =>
      match getProperty members "toString" with
      | Some _ => None
      | None => Some "[object Object]"
      end
  end.

(** *** Reading *)

Definition isSpace (c : ascii) : bool :=
  let n := JS.code c in (n =? 32) || (n =? 9) || (n =? 10) || (n =? 13).

Fixpoint skip (s : string) : string :=
  match s with
  | EmptyString => EmptyString
  | String c rest => if isSpace c then skip rest else s
  end.

Definition hexValue (c : ascii) : option Z :=
  let n := JS.code c in
  if (48 <=? n) && (n <=? 57) then Some (n - 48)
  else if (97 <=? n) && (n <=? 102) then Some (n - 87)
  else if (65 <=? n) && (n <=? 70) then Some (n - 55)
  else None.

(** The characters of a string literal after its opening quote, and
    what follows the closing quote. *)
Fixpoint readChars (s : string) : option (string * string) :=
  let cons (c : ascii) (r : option (string * string)) :=
    match r with
    | Some (chars, rest) => Some (String c chars, rest)
    | None => None
    end in
  match s with
  | EmptyString => None
  | String "034" rest => Some ("", rest)
  | String "\" (String e rest) =>
      match e with
      | "034"%char => cons doubleQuote (readChars rest)
      | "\"%char => cons "\"%char (readChars rest)
      | "/"%char => cons "/"%char (readChars rest)
      | "b"%char => cons (char 8) (readChars rest)
      | "f"%char => cons (char 12) (readChars rest)
      | "n"%char => cons (char 10) (readChars rest)
      | "r"%char => cons (char 13) (readChars rest)
      | "t"%char => cons (char 9) (readChars rest)
      | "u"%char =>
          match rest with
          | String h1 (String h2 (String h3 (String h4 rest'))) =>
              match hexValue h1, hexValue h2, hexValue h3, hexValue h4 with
              | Some 0, Some 0, Some a, Some b => cons (char (16 * a + b)) (readChars rest')
              | _, _, _, _ => None
              end
          | _ => None
          end
      | _ => None
      end
  | String c rest => if JS.code c <? 32 then None else cons c (readChars rest)
  end.

(** Trailing zeros of the fraction are dropped, a positive exponent is
    multiplied out. *)
Fixpoint normalize (fuel : nat) (mantissa exponent : Z) : value :=
  match fuel with
  | O => VNumber mantissa exponent
  | S fuel' =>
      if (exponent <? 0) && (mantissa mod 10 =? 0)
      then normalize fuel' (mantissa / 10) (exponent + 1)
      else VNumber mantissa exponent
  end.

Definition number (mantissa exponent : Z) : value :=
  if 0 <=? exponent then VNumber (mantissa * 10 ^ exponent) 0
  else normalize (Z.to_nat (- exponent)) mantissa exponent.

(** A JSON number at the head of [s]. *)
Definition readNumber (s : string) : option (value * string) :=
  let '(negative, s) :=
    match s with
    | String "-" rest => (true, rest)
    | _ => (false, s)
    end in
  let '(int, intCount, rest) := JS.readDigits s 0 0 in
  let leadingZero :=
    match s with
    | String "0" _ => 1 <? intCount
    | _ => false
    end in
  if (intCount =? 0) || leadingZero then None
  else
    let fraction :=
      match rest with
      | String "." after =>
          let '(frac, fracCount, rest') := JS.readDigits after int 0 in
          if fracCount =? 0 then None else Some (frac, fracCount, rest')
      | _ => Some (int, 0, rest)
      end in
    match fraction with
    | None => None
    | Some (mantissa, fracCount, rest) =>
        let '(exponent, rest) :=
          match rest with
          | String c after =>
              if Ascii.eqb c "e" || Ascii.eqb c "E" then
                let '(sign, after) :=
                  match after with
                  | String "-" r => (-1, r)
                  | String "+" r => (1, r)
                  | _ => (1, after)
                  end in
                let '(e, count, rest') := JS.readDigits after 0 0 in
                if 0 <? count then (sign * e, rest') else (0, rest)
              else (0, rest)
          | EmptyString => (0, rest)
          end in
        Some (number (if negative then - mantissa else mantissa) (exponent - fracCount),
              rest)
    end.

Section Containers.

(** The reader of one value, at the nesting depth below. *)
Variable readValue : string -> option (value * string).

(** The items of an array after the first, up to the closing bracket. *)
Fixpoint readItems (fuel : nat) (s : string) : option (list value * string) :=
  match fuel, skip s with
  | S fuel', String "]" rest => Some ([], rest)
  | S fuel', String "," rest =>
      match readValue rest with
      | Some (item, rest) =>
          match readItems fuel' rest with
          | Some (items, rest) => Some (item :: items, rest)
          | None => None
          end
      | None => None
      end
  | _, _ => None
  end.

(** One member, [ "key" : value ]. *)
Definition readMember (s : string) : option (string * value * string) :=
  match skip s with
  | String "034" rest =>
      match readChars rest with
      | Some (key, rest) =>
          match skip rest with
          | String ":" rest =>
              match readValue rest with
              | Some (item, rest) => Some (key, item, rest)
              | None => None
              end
          | _ => None
          end
      | None => None
      end
  | _ => None
  end.

(** The members of an object after the first, up to the closing brace. *)
Fixpoint readMembers (fuel : nat) (s : string)
  : option (list (string * value) * string) :=
  match fuel, skip s with
  | S fuel', String "}" rest => Some ([], rest)
  | S fuel', String "," rest =>
      match readMember rest with
      | Some (key, item, rest) =>
          match readMembers fuel' rest with
          | Some (members, rest) => Some ((key, item) :: members, rest)
          | None => None
          end
      | None => None
      end
  | _, _ => None
  end.

End Containers.

(** One JSON value at the head of [s], white space before it skipped;
    [fuel] bounds the nesting and the length of a container. *)
Fixpoint readValue (fuel : nat) (s : string) : option (value * string) :=
  match fuel with
  | O => None
  | S fuel' =>
      match skip s with
      | String "{" rest =>
          match skip rest with
          | String "}" rest => Some (VObject [], rest)
          | _ =>
              match readMember (readValue fuel') rest with
              | Some (key, item, rest) =>
                  match readMembers (readValue fuel') fuel' rest with
                  | Some (members, rest) => Some (object ((key, item) :: members), rest)
                  | None => None
                  end
              | None => None
              end
          end
      | String "[" rest =>
          match skip rest with
          | String "]" rest => Some (VArray [], rest)
          | _ =>
              match readValue fuel' rest with
              | Some (item, rest) =>
                  match readItems (readValue fuel') fuel' rest with
                  | Some (items, rest) => Some (VArray (item :: items), rest)
                  | None => None
                  end
              | None => None
              end
          end
      | String "034" rest =>
          match readChars rest with
          | Some (chars, rest) => Some (VString chars, rest)
          | None => None
          end
      | rest =>
          match JS.stripPrefix "true" rest, JS.stripPrefix "false" rest,
                JS.stripPrefix "null" rest with
          | Some rest, _, _ => Some (VBool true, rest)
          | _, Some rest, _ => Some (VBool false, rest)
          | _, _, Some rest => Some (VNull, rest)
          | _, _, _ => readNumber rest
          end
      end
  end.

(** [JSON.parse(s)]: one value and nothing but white space after it.
    The length of the text is fuel enough.  [None] is a [SyntaxError],
    and is also the answer for a text with an escape above
    u00FF, whose value has no counterpart among these strings. *)
Definition parse (s : string) : option value :=
  match readValue (S (String.length s)) s with
  | Some (v, rest) =>
      match skip rest with
      | EmptyString => Some v
      | _ => None
      end
  | None => None
  end.

(** [v.error], when reading it does not throw and it is not nullish. *)
Definition errorProperty (v : value) : option value :=
  match v with
  | VObject members =>
      match getProperty members "error" with
      | Some VNull | None => None
      | Some message => Some message
      end
  | _ => None
  end.

End JSON.

Module Node.

(** [createHmac('sha256', key).update(message).digest('hex')]: both
    strings are hashed as their UTF-8 bytes. *)
Definition hmac (key message : string) : string :=
  Crypto.hex (Crypto.hmacSha256 (JS.Buffer_from key) (JS.Buffer_from message)).

(** Node in front of a given network. *)
Definition host (network : Request -> fetched) : Host :=
  {| JsValue := JSON.value;
     ofString := JSON.VString;
     ofProperties := JSON.object;
     JSON_stringify := JSON.stringify;
     JSON_parse := JSON.parse;
     errorProperty := JSON.errorProperty;
     ToString := JSON.ToString;
     hmacSha256Hex := hmac;
     fetch := network |}.

(** A network on which nothing answers. *)
Definition offline : Request -> fetched :=
  fun _ => Rejected (ErrorObject "TypeError" "fetch failed").

(** A network whose server answers every request the same way. *)
Definition answering (response : Response) : Request -> fetched :=
  fun _ => Resolved response.

End Node.

(** Sample data: a host off the network, a signing secret, a webhook
    body, and a server that answers 429. *)
Module Sample.

Definition node : Host := Node.host Node.offline.

Definition secret : string := "whsec_test".

Definition ping : string := JSON.text "{'event':'test.ping'}".

Definition tooManyRequests : Response :=
  mkResponse 429 [("Retry-After", "30")]
    (JSON.text "{'error':'Rate limit exceeded'}").


Definition limited : Host := Node.host (Node.answering tooManyRequests).

Definition client : NopeClient :=
  newNopeClient (mkClientOptions (Some "test_key") None None).

End Sample.

(** ** The notions the properties are stated with *)

(** A rejection for staleness: one of the two messages of the
    freshness block. *)
Definition stale {A : Type} (outcome : completion A) : Prop :=
  exists age maxAge,
    outcome = Throw (WebhookSignatureError (tooOld age maxAge))
    \/ outcome = Throw (WebhookSignatureError (tooFarInFuture age maxAge)).

(** The reasons [verify] gives in a [WebhookSignatureError]: five
    fixed texts, and the two of the freshness block with the numbers
    they name. *)
Definition descriptive (reason : string) : Prop :=
  reason = "Missing X-NOPE-Signature header"
  \/ reason = "Missing X-NOPE-Timestamp header"
  \/ reason = "Webhook secret is required"
  \/ reason = "Invalid timestamp format"
  \/ (exists numbers, reason = "Timestamp too old: " ++ numbers)
  \/ (exists numbers, reason = "Timestamp too far in future: " ++ numbers)
  \/ reason = "Signature verification failed".

(** [Number.isSafeInteger(n)]: an integer that a number holds exactly,
    as it holds its neighbours. *)
Definition safeInteger (n : Z) : Prop := Z.abs n < 2 ^ 53.

(** What [JSON.stringify] throws on the value [o] is [e]. *)
Definition refuses {host : Host} (o : JsValue) (e : exn) : Prop :=
  (e = TypeError /\ exists message, JSON_stringify o = Unserializable message)
  \/ (exists thrown, e = Uncaught thrown /\ JSON_stringify o = Raises thrown).

(** A header that is missing ([undefined]) or empty. *)
Definition missing (header : option string) : Prop :=
  header = None \/ header = Some "".

Definition isDigit (c : ascii) : bool :=
  match JS.digit c with
  | Some _ => true
  | None => false
  end.

(** The first character of [s] is a decimal digit. *)
Definition startsWithDigit (s : string) : bool :=
  match s with
  | String c _ => isDigit c
  | EmptyString => false
  end.

Fixpoint allDigits (s : string) : bool :=
  match s with
  | EmptyString => true
  | String c rest => isDigit c && allDigits rest
  end.

(** The decimal representation of an integer: an optional sign, then
    digits and nothing else. *)
Definition isDecimalInteger (s : string) : bool :=
  match s with
  | String "-" (String c rest) | String "+" (String c rest) | String c rest =>
      isDigit c && allDigits rest
  | _ => false
  end.

(** What [parseInt] asks of a string: after the leading white space
    and one optional sign, a digit comes first. *)
Definition startsWithInteger (s : string) : bool :=
  match JS.trimStart s with
  | String "-" (String c _) | String "+" (String c _) => isDigit c
  | String c _ => isDigit c
  | EmptyString => false
  end.

(** The character [c] with bit [i] flipped. *)
Definition flipBit (i : nat) (c : ascii) : ascii :=
  let 'Ascii b0 b1 b2 b3 b4 b5 b6 b7 := c in
  match i with
  | 0%nat => Ascii (negb b0) b1 b2 b3 b4 b5 b6 b7
  | 1%nat => Ascii b0 (negb b1) b2 b3 b4 b5 b6 b7
  | 2%nat => Ascii b0 b1 (negb b2) b3 b4 b5 b6 b7
  | 3%nat => Ascii b0 b1 b2 (negb b3) b4 b5 b6 b7
  | 4%nat => Ascii b0 b1 b2 b3 (negb b4) b5 b6 b7
  | 5%nat => Ascii b0 b1 b2 b3 b4 (negb b5) b6 b7
  | 6%nat => Ascii b0 b1 b2 b3 b4 b5 (negb b6) b7
  | 7%nat => Ascii b0 b1 b2 b3 b4 b5 b6 (negb b7)
  | _ => c
  end.

(** The string [s] with bit [i] of the character at [position]
    flipped. *)
Fixpoint flipAt (position i : nat) (s : string) : string :=
  match s, position with
  | EmptyString, _ => EmptyString
  | String c rest, O => String (flipBit i c) rest
  | String c rest, S position' => String c (flipAt position' i rest)
  end.

Definition isHexDigit (c : ascii) : bool :=
  let n := JS.code c in
  ((48 <=? n) && (n <=? 57)) || ((97 <=? n) && (n <=? 102)).

(** A string of lower-case hexadecimal digits, as [digest('hex')]
    gives. *)
Fixpoint isHex (s : string) : bool :=
  match s with
  | EmptyString => true
  | String c rest => isHexDigit c && isHex rest
  end.

(** ** errors.ts: what an error object holds and how it prints *)

Module Errors.

(** [e instanceof NopeError] *)
Definition isNopeError (e : exn) : bool :=
  match e with
  | NopeError _ _ _ | NopeAuthError _ _ | NopeRateLimitError _ _ _
  | NopeValidationError _ _ | NopeServerError _ _ _ | NopeConnectionError _ _ => true
  | _ => false
  end.

(** [e.name], as the constructors set it; [None] for a thrown value
    that is no [Error]. *)
Definition name (e : exn) : option string :=
  match e with
  | Error _ => Some "Error"
  | SyntaxError => Some "SyntaxError"
  | TypeError => Some "TypeError"
  | RangeError => Some "RangeError"
  | Uncaught (ErrorObject name _) => Some name
  | Uncaught NotAnError => None
  | WebhookSignatureError _ => Some "WebhookSignatureError"
  | NopeError _ _ _ => Some "NopeError"
  | NopeAuthError _ _ => Some "NopeAuthError"
  | NopeRateLimitError _ _ _ => Some "NopeRateLimitError"
  | NopeValidationError _ _ => Some "NopeValidationError"
  | NopeServerError _ _ _ => Some "NopeServerError"
  | NopeConnectionError _ _ => Some "NopeConnectionError"
  end.

(** [e.message] of an error of this SDK; the message of an error of
    the host is the host's. *)
Definition message (e : exn) : option string :=
  match e with
  | Error m | WebhookSignatureError m | NopeError m _ _ | NopeAuthError m _
  | NopeRateLimitError m _ _ | NopeValidationError m _ | NopeServerError m _ _
  | NopeConnectionError m _ => Some m
  | Uncaught (ErrorObject _ m) => Some m
  | Uncaught NotAnError | SyntaxError | TypeError | RangeError => None
  end.

(** [e.statusCode]: what each constructor hands to [super]. *)
Definition statusCode (e : exn) : option Z :=
  match e with
  | NopeError _ code _ => code
  | NopeAuthError _ _ => Some 401
  | NopeRateLimitError _ _ _ => Some 429
  | NopeValidationError _ _ => Some 400
  | NopeServerError _ code _ => Some code
  | _ => None
  end.

(** [e.responseBody] *)
Definition responseBody (e : exn) : option string :=
  match e with
  | NopeError _ _ body | NopeAuthError _ body | NopeRateLimitError _ _ body
  | NopeValidationError _ body | NopeServerError _ _ body => body
  | _ => None
  end.

(** A number in a condition: [NaN] and zero are falsy. *)
Definition truthy (x : number) : bool :=
  match x with
  | NaN => false
  | Infinity _ => true
  | Num q => negb (Qnum q =? 0)
  end.

Section Printing.

(** [`${x}`] for a number [x], the language's [Number::toString].
    The digits of a double are not part of this embedding; a safe
    integer prints as [JS.toString] has it. *)
Variable Number_toString : number -> string.

(** [NopeError.prototype.toString] (lines 26-31) for an instance of
    [NopeError]. *)
Definition base (e : exn) (message : string) : string :=
  match statusCode e with
  | Some code =>
      if code =? 0 then message else "[" ++ JS.toString code ++ "] " ++ message
  | None => message
  end.

(** [e.toString()] for an error of [errors.ts]: the method of
    [NopeError], and its override in [NopeRateLimitError] (lines 65-71).
    [None] for an error that is not a [NopeError], whose [toString] is
    the host's. *)
Definition toString (e : exn) : option string :=
  match e with
  | NopeError m _ _ | NopeAuthError m _ | NopeValidationError m _
  | NopeServerError m _ _ | NopeConnectionError m _ => Some (base e m)
  | NopeRateLimitError m retryAfter _ =>
      match retryAfter with
      | Some ms =>
          if truthy ms then
            Some (base e m ++ " (retry after " ++ Number_toString ms ++ "ms)")
          else Some (base e m)
      | None => Some (base e m)
      end
  | _ => None
  end.

End Printing.

End Errors.

(** ** types.ts: the utility functions *)

Module Types.

(** [RiskSubject] *)
Inductive RiskSubject : Type := self | other | unknown.

(** [RiskType] *)
Inductive RiskType : Type :=
| suicide | self_harm | self_neglect | violence | abuse
| sexual_violence | neglect | exploitation | stalking.

(** [Severity] *)
Inductive Severity : Type := none | mild | moderate | high | critical.

(** [Imminence] *)
Inductive Imminence : Type :=
| not_applicable | chronic | subacute | urgent | emergency.

(** [Risk] *)
Record Risk : Type := mkRisk {
  subject : RiskSubject;
  subject_confidence : number;
  type : RiskType;
  severity : Severity;
  imminence : Imminence;
  confidence : number;
  features : list string
}.

Definition RiskSubject_eqb (a b : RiskSubject) : bool :=
  match a, b with
  | self, self | other, other | unknown, unknown => true
  | _, _ => false
  end.

Definition Severity_eqb (a b : Severity) : bool :=
  match a, b with
  | none, none | mild, mild | moderate, moderate | high, high
  | critical, critical => true
  | _, _ => false
  end.

Definition Imminence_eqb (a b : Imminence) : bool :=
  match a, b with
  | not_applicable, not_applicable | chronic, chronic | subacute, subacute
  | urgent, urgent | emergency, emergency => true
  | _, _ => false
  end.

(** [x > y] on numbers: false as soon as one of them is [NaN]. *)
Definition greater (x y : number) : bool :=
  match x, y with
  | NaN, _ | _, NaN => false
  | Infinity negative, Infinity negative' => negb negative && negative'
  | Infinity negative, Num _ => negb negative
  | Num _, Infinity negative => negative
  | Num p, Num q =>
      match Qcompare p q with
      | Gt => true
      | _ => false
      end
  end.

(** The literal [0.5]. *)
Definition half : number := Num (1 # 2).

(** [table[key]] for an object used as a table; [None] is
    [undefined]. *)
Fixpoint get {K : Type} (eqb : K -> K -> bool) (table : list (K * Z)) (key : K)
  : option Z :=
  match table with
  | [] => None
  | (k, v) :: rest => if eqb k key then Some v else get eqb rest key
  end.

(** [Math.max(...xs)] on integers and [undefined]: [-Infinity] for no
    argument, [NaN] as soon as one argument is [undefined]. *)
Fixpoint Math_max (xs : list (option Z)) : number :=
  match xs with
  | [] => Infinity true
  | None :: _ => NaN
  | Some x :: rest =>
      match Math_max rest with
      | NaN => NaN
      | Infinity true => Num (inject_Z x)
      | Infinity false => Infinity false
      | Num q => if Qle_bool q (inject_Z x) then Num (inject_Z x) else Num q
      end
  end.

(** [score === maxScore] *)
Definition strictEquals (score : Z) (maxScore : number) : bool :=
  match maxScore with
  | Num q => Qeq_bool (inject_Z score) q
  | _ => false
  end.

(** [SEVERITY_SCORES], in the order [Object.entries] lists it. *)
Definition SEVERITY_SCORES : list (Severity * Z) :=
  [(none, 0); (mild, 1); (moderate, 2); (high, 3); (critical, 4)].

(** [IMMINENCE_SCORES] *)
Definition IMMINENCE_SCORES : list (Imminence * Z) :=
  [(not_applicable, 0); (chronic, 1); (subacute, 2); (urgent, 3); (emergency, 4)].

(** [(r) => r.subject === 'self' && r.subject_confidence > 0.5] *)
Definition isSpeakerRisk (r : Risk) : bool :=
  RiskSubject_eqb (subject r) self && greater (subject_confidence r) half.

(** [calculateSpeakerSeverity(risks)] *)
Definition calculateSpeakerSeverity (risks : list Risk) : Severity :=
  let speakerRisks := filter isSpeakerRisk risks in
  if (List.length speakerRisks =? 0)%nat then none
  else
    let maxScore :=
      Math_max (map (fun r => get Severity_eqb SEVERITY_SCORES (severity r))
                  speakerRisks) in
    let entries := SEVERITY_SCORES in
    match find (fun entry => strictEquals (snd entry) maxScore) entries with
    | Some entry => fst entry
    | None => none
    end.

(** [calculateSpeakerImminence(risks)] *)
Definition calculateSpeakerImminence (risks : list Risk) : Imminence :=
  let speakerRisks := filter isSpeakerRisk risks in
  if (List.length speakerRisks =? 0)%nat then not_applicable
  else
    let maxScore :=
      Math_max (map (fun r => get Imminence_eqb IMMINENCE_SCORES (imminence r))
                  speakerRisks) in
    let entries := IMMINENCE_SCORES in
    match find (fun entry => strictEquals (snd entry) maxScore) entries with
    | Some entry => fst entry
    | None => not_applicable
    end.

(** [hasThirdPartyRisk(risks)] *)
Definition hasThirdPartyRisk (risks : list Risk) : bool :=
  existsb (fun r => RiskSubject_eqb (subject r) other
                    && greater (subject_confidence r) half) risks.

(** The score of a severity and of an imminence, as the tables give
    them. *)
Definition severityScore (s : Severity) : Z :=
  match get Severity_eqb SEVERITY_SCORES s with
  | Some score => score
  | None => 0
  end.

Definition imminenceScore (i : Imminence) : Z :=
  match get Imminence_eqb IMMINENCE_SCORES i with
  | Some score => score
  | None => 0
  end.

(** The higher of two severities, and of two imminences. *)
Definition higherSeverity (a b : Severity) : Severity :=
  if severityScore a <=? severityScore b then b else a.

Definition higherImminence (a b : Imminence) : Imminence :=
  if imminenceScore a <=? imminenceScore b then b else a.

End Types.

(** More sample data: how a number prints when it is integral, and a
    few risks. *)
Module Sample2.

(** [Number::toString] on [NaN], the infinities and the integral
    numbers; the examples print no other number. *)
Definition showIntegral (x : number) : string :=
  match x with
  | NaN => "NaN"
  | Infinity negative => if negative then "-Infinity" else "Infinity"
  | Num q =>
      JS.toString match Qden q with
                  | xH => Qnum q
                  | denominator => Qnum q / Z.pos denominator
                  end
  end.

Definition speaker (s : Types.Severity) (i : Types.Imminence) : Types.Risk :=
  Types.mkRisk Types.self (Num (9 # 10)) Types.suicide s i (Num (8 # 10)) [].

Definition thirdParty (s : Types.Severity) : Types.Risk :=
  Types.mkRisk Types.other (Num (9 # 10)) Types.violence s Types.urgent
    (Num (8 # 10)) [].

Definition uncertain (s : Types.Severity) : Types.Risk :=
  Types.mkRisk Types.self (Num (1 # 2)) Types.suicide s Types.emergency
    (Num (8 # 10)) [].

(** Four risks: two of the speaker, one of a third party, one whose
    subject is in doubt. *)
Definition risks : list Types.Risk :=
  [ speaker Types.moderate Types.urgent; thirdParty Types.critical;
    uncertain Types.critical; speaker Types.high Types.chronic ].

(** The signature of [Sample.ping] under [Sample.secret] at
    1700000000, without its prefix. *)
Definition pingHmac : string :=
  "517adbf639a9986e7f8da4799f94a2ba6722aa4a7819c6c492cd199f08cd5caf".

Definition pingEvent : JSON.value :=
  JSON.VObject [("event", JSON.VString "test.ping")].


(** A server that answers every request with the given status and
    body. *)
Definition server (status : Z) (body : string) : Request -> fetched :=
  Node.answering (mkResponse status [] body).


End Sample2.


(** [s] ends with the character [c]. *)
Fixpoint endsWith (c : ascii) (s : string) : bool :=
  match s with
  | EmptyString => false
  | String d EmptyString => Ascii.eqb d c
  | String _ rest => endsWith c rest
  end.

(** * Properties *)

(** ** The host functions *)

Module JSFacts.

Import JS.

Lemma falsy_false (s : string) : s <> "" -> falsy s = false.
Proof. destruct s; [congruence | reflexivity]. Qed.

Lemma falsy_true (s : string) : falsy s = true -> s = "".
Proof. destruct s; [reflexivity | discriminate]. Qed.

(** *** [String(n)] read back by [parseInt] *)

Lemma digits_step (c : ascii) (rest : string) (acc : option Z) (k : Z) :
  digit c = Some k ->
  digits (String c rest) acc
  = digits rest (Some (10 * match acc with Some a => a | None => 0 end + k)).
Proof. intro H; cbn [digits]; now rewrite H. Qed.

Lemma digits_acc (d : Decimal.uint) (p : positive) :
  digits (NilEmpty.string_of_uint d) (Some (Z.pos p))
  = Some (Z.pos (Pos.of_uint_acc d p)).
Proof.
  revert p; induction d; intro p; cbn [NilEmpty.string_of_uint Pos.of_uint_acc];
    [reflexivity | ..];
    (erewrite digits_step by reflexivity;
     rewrite <- IHd; do 2 f_equal;
     try match goal with
         | |- context [code ?c] =>
             let v := eval vm_compute in (code c) in change (code c) with v
         end; lia).
Qed.

Lemma digits_zero (d : Decimal.uint) :
  digits (NilEmpty.string_of_uint d) (Some 0) = Some (Z.of_N (Pos.of_uint d)).
Proof.
  induction d; cbn [NilEmpty.string_of_uint Pos.of_uint]; [reflexivity | ..];
    erewrite digits_step by reflexivity;
    first [ exact IHd | apply (digits_acc d _) ].
Qed.

Lemma digits_none (d : Decimal.uint) :
  d <> Decimal.Nil ->
  digits (NilEmpty.string_of_uint d) None = Some (Z.of_N (Pos.of_uint d)).
Proof.
  destruct d; intro H; [congruence | ..];
    cbn [NilEmpty.string_of_uint Pos.of_uint];
    erewrite digits_step by reflexivity;
    first [ apply digits_zero | apply (digits_acc d _) ].
Qed.

Lemma uint_startsWithDigit (d : Decimal.uint) :
  d <> Decimal.Nil -> startsWithDigit (NilEmpty.string_of_uint d) = true.
Proof. destruct d; intro H; [congruence | reflexivity ..]. Qed.

Lemma parseInt_digits (s : string) :
  startsWithDigit s = true -> parseInt s = digits s None.
Proof.
  destruct s as [|c s]; [discriminate |].
  destruct c as [[] [] [] [] [] [] [] []]; try discriminate; intros _;
    unfold parseInt;
    match goal with
    | |- context [trimStart ?t] => change (trimStart t) with t
    end;
    cbv beta iota;
    match goal with
    | |- context [digits ?t None] => destruct (digits t None)
    end; try reflexivity; f_equal; apply Z.mul_1_l.
Qed.

Theorem parseInt_toString (n : Z) : parseInt (toString n) = Some n.
Proof.
  unfold toString. destruct n as [|p|p]; cbn [Z.to_int NilEmpty.string_of_int].
  - reflexivity.
  - pose proof (DecimalPos.Unsigned.to_uint_nonnil p) as Hnil.
    rewrite parseInt_digits by (apply uint_startsWithDigit; exact Hnil).
    rewrite digits_none by exact Hnil.
    now rewrite DecimalPos.Unsigned.of_to.
  - pose proof (DecimalPos.Unsigned.to_uint_nonnil p) as Hnil.
    unfold parseInt. cbn [trimStart]. cbn.
    rewrite digits_none by exact Hnil.
    rewrite DecimalPos.Unsigned.of_to. reflexivity.
Qed.

Lemma toString_not_empty (n : Z) : toString n <> "".
Proof.
  unfold toString. destruct n as [|p|p]; cbn [Z.to_int NilEmpty.string_of_int];
    try discriminate.
  pose proof (DecimalPos.Unsigned.to_uint_nonnil p) as Hnil.
  destruct (Pos.to_uint p); [congruence | discriminate ..].
Qed.

(** *** When [parseInt] gives [NaN] *)

Lemma digits_some (s : string) (a : Z) : exists v, digits s (Some a) = Some v.
Proof.
  revert a; induction s as [|c s IH]; intro a; cbn [digits]; [eauto |].
  destruct (digit c); eauto.
Qed.

Lemma digits_None_iff (s : string) :
  digits s None = None <-> startsWithDigit s = false.
Proof.
  destruct s as [|c s]; cbn [digits startsWithDigit]; [tauto |].
  unfold isDigit. destruct (digit c) as [d |]; [| tauto].
  destruct (digits_some s (10 * 0 + d)) as [v ->]. split; discriminate.
Qed.

Lemma signed_digits_None_iff (sign : Z) (s : string) :
  match digits s None with
  | Some mathInt => Some (sign * mathInt)
  | None => None
  end = None <-> startsWithDigit s = false.
Proof.
  rewrite <- digits_None_iff. destruct (digits s None); [| tauto].
  split; discriminate.
Qed.

Theorem parseInt_None_iff (s : string) :
  parseInt s = None <-> startsWithInteger s = false.
Proof.
  unfold parseInt, startsWithInteger.
  destruct (trimStart s) as [|c u]; [cbn; tauto |].
  destruct c as [[] [] [] [] [] [] [] []]; cbv beta iota zeta;
    rewrite signed_digits_None_iff; destruct u; reflexivity.
Qed.

End JSFacts.

(** *** [Buffer.from] and [timingSafeEqual] *)

Module BufferFacts.

Import JS.

Lemma decode_utf8 (c : ascii) (bytes : Buffer) :
  decode (utf8 c ++ bytes)%list = String c (decode bytes).
Proof. destruct c as [[] [] [] [] [] [] [] []]; reflexivity. Qed.

Lemma decode_Buffer_from (s : string) : decode (Buffer_from s) = s.
Proof.
  induction s as [|c s IH]; [reflexivity |].
  cbn [Buffer_from]. now rewrite decode_utf8, IH.
Qed.

Lemma Buffer_from_inj (s t : string) : Buffer_from s = Buffer_from t -> s = t.
Proof.
  intro H. rewrite <- (decode_Buffer_from s), <- (decode_Buffer_from t).
  now rewrite H.
Qed.

Lemma bytes_eqb_eq (a b : Buffer) : bytes_eqb a b = true <-> a = b.
Proof.
  revert b; induction a as [|x a IH]; intros [|y b]; cbn [bytes_eqb];
    try (split; [discriminate | congruence]); [tauto |].
  rewrite andb_true_iff, Z.eqb_eq, IH. split.
  - intros [-> ->]; reflexivity.
  - intro H; injection H; auto.
Qed.

Lemma bytes_eqb_refl (a : Buffer) : bytes_eqb a a = true.
Proof. now apply bytes_eqb_eq. Qed.

(** A string whose code units are all below 128 has one byte per
    character. *)
Lemma isHexDigit_ascii (c : ascii) : isHexDigit c = true -> utf8 c = [code c].
Proof.
  unfold isHexDigit, utf8. intro H.
  destruct (code c <? 128) eqn:E; [reflexivity |].
  apply Z.ltb_ge in E. lia.
Qed.

Lemma isHex_length (s : string) :
  isHex s = true -> List.length (Buffer_from s) = String.length s.
Proof.
  induction s as [|c s IH]; [reflexivity |].
  cbn [isHex Buffer_from String.length]. rewrite andb_true_iff. intros [Hc Hs].
  rewrite (isHexDigit_ascii c Hc). cbn [List.app List.length]. now rewrite IH.
Qed.

End BufferFacts.

(** ** webhook.ts *)

Section WebhookFacts.

Context {host : Host}.

(** The comparison accepts exactly the received string that is the
    expected one, and never throws. *)
Lemma compareSignatures_eqb (expected received : string) :
  compareSignatures expected received = Return (String.eqb expected received).
Proof.
  unfold compareSignatures, JS.timingSafeEqual. f_equal.
  destruct (String.eqb_spec expected received) as [-> | Hne].
  - rewrite Nat.eqb_refl. cbn [try_catch]. apply BufferFacts.bytes_eqb_refl.
  - destruct (_ =? _)%nat; cbn [try_catch]; [| reflexivity].
    destruct (JS.bytes_eqb _ _) eqn:E; [| reflexivity].
    apply BufferFacts.bytes_eqb_eq, BufferFacts.Buffer_from_inj in E. contradiction.
Qed.

Lemma checkSignature_eqb (expected received : string) :
  checkSignature expected received
  = if String.eqb expected received then Return tt
    else Throw (WebhookSignatureError "Signature verification failed").
Proof.
  unfold checkSignature. rewrite compareSignatures_eqb. cbn [bind].
  now destruct (String.eqb expected received).
Qed.

Lemma checkSignature_same (expected : string) :
  checkSignature expected expected = Return tt.
Proof. rewrite checkSignature_eqb. now rewrite String.eqb_refl. Qed.

(** [verify] once the three inputs are there. *)
Lemma verify_present (now : Z) (payload : Payload) (sig ts secret : string)
    (options : WebhookVerifyOptions) :
  sig <> "" -> ts <> "" -> secret <> "" ->
  verify now payload (Some sig) (Some ts) secret options
  = (timestampNum <-
       match JS.parseInt ts with
       | None => Throw (WebhookSignatureError "Invalid timestamp format")
       | Some n => Return n
       end ;;
     checkFreshness now timestampNum (maxAgeOf options) ;;;
     verifySignature payload sig ts secret).
Proof.
  intros Hsig Hts Hsecret.
  destruct sig; [congruence |]. destruct ts; [congruence |].
  destruct secret; [congruence |]. reflexivity.
Qed.

Lemma verify_parsed (now : Z) (payload : Payload) (sig ts secret : string)
    (options : WebhookVerifyOptions) (t : Z) :
  sig <> "" -> ts <> "" -> secret <> "" -> JS.parseInt ts = Some t ->
  verify now payload (Some sig) (Some ts) secret options
  = (checkFreshness now t (maxAgeOf options) ;;;
     verifySignature payload sig ts secret).
Proof.
  intros Hsig Hts Hsecret Ht. rewrite verify_present by assumption.
  now rewrite Ht.
Qed.

(** The freshness block, case by case. *)
Lemma checkFreshness_cases (now t maxAge : Z) :
  checkFreshness now t maxAge
  = if maxAge >? 0 then
      if now - t >? maxAge then
        Throw (WebhookSignatureError (tooOld (now - t) maxAge))
      else if now - t <? - maxAge then
        Throw (WebhookSignatureError (tooFarInFuture (now - t) maxAge))
      else Return tt
    else Return tt.
Proof.
  unfold checkFreshness, throw_if.
  destruct (maxAge >? 0); [| reflexivity].
  destruct (now - t >? maxAge); [reflexivity |]. cbn [bind].
  now destruct (now - t <? - maxAge).
Qed.

Lemma checkFreshness_fresh (now t maxAge : Z) :
  - maxAge <= now - t <= maxAge -> checkFreshness now t maxAge = Return tt.
Proof.
  intro H. rewrite checkFreshness_cases.
  destruct (maxAge >? 0); [| reflexivity].
  destruct (Z.gtb_spec (now - t) maxAge); [lia |].
  destruct (Z.ltb_spec (now - t) (- maxAge)); [lia | reflexivity].
Qed.

Lemma checkFreshness_disabled (now t maxAge : Z) :
  maxAge <= 0 -> checkFreshness now t maxAge = Return tt.
Proof.
  intro H. rewrite checkFreshness_cases.
  destruct (Z.gtb_spec maxAge 0); [lia | reflexivity].
Qed.

(** The freshness block lets a timestamp pass exactly within its
    window. *)
Lemma checkFreshness_Return_iff (now t maxAge : Z) :
  checkFreshness now t maxAge = Return tt
  <-> (0 < maxAge -> - maxAge <= now - t <= maxAge).
Proof.
  rewrite checkFreshness_cases.
  destruct (Z.gtb_spec maxAge 0); [| split; [lia | reflexivity]].
  destruct (Z.gtb_spec (now - t) maxAge);
    [split; [discriminate | lia] |].
  destruct (Z.ltb_spec (now - t) (- maxAge));
    [split; [discriminate | lia] |].
  split; [lia | reflexivity].
Qed.

(** What the steps after the freshness block can end in. *)
Lemma verifySignature_outcomes (payload : Payload) (sig ts secret : string) :
  (exists v, verifySignature payload sig ts secret = Return v)
  \/ verifySignature payload sig ts secret
     = Throw (WebhookSignatureError "Signature verification failed")
  \/ verifySignature payload sig ts secret = Throw TypeError
  \/ verifySignature payload sig ts secret = Throw SyntaxError
  \/ (exists thrown, verifySignature payload sig ts secret = Throw (Uncaught thrown)).
Proof.
  unfold verifySignature.
  destruct (stringifyPayload payload) as [ps | e] eqn:Hs.
  - cbn [bind]. rewrite checkSignature_eqb.
    destruct (String.eqb _ _); cbn [bind]; [| tauto].
    unfold parsePayload. destruct payload as [s | o]; [| eauto].
    destruct (JSON_parse s); eauto.
  - cbn [bind]. unfold stringifyPayload in Hs.
    destruct payload as [s | o]; [discriminate |].
    destruct (JSON_stringify o) as [s | | message | thrown]; try discriminate Hs;
      injection Hs as <-; [tauto | do 4 right; eauto].
Qed.

Lemma verifySignature_not_stale (payload : Payload) (sig ts secret : string) :
  ~ stale (verifySignature payload sig ts secret).
Proof.
  intros (age & maxAge & H).
  destruct (verifySignature_outcomes payload sig ts secret)
    as [[v Hv] | [Hv | [Hv | [Hv | [thrown Hv]]]]];
    rewrite Hv in H; unfold tooOld, tooFarInFuture in H; cbn [append] in H;
    destruct H as [H | H]; discriminate H.
Qed.

End WebhookFacts.

Section WebhookProperties.

Context {host : Host}.

Local Ltac messages H :=
  unfold tooOld, tooFarInFuture in H; cbn [append] in H; discriminate H.

(** C3.  With a positive [maxAgeSeconds] (300 when the option is left
    out), the three inputs present and the timestamp parsed as [t],
    [verify] rejects with the reason "too old" whenever the age [now -
    t] exceeds [maxAgeSeconds], with the reason "too far in future"
    whenever the age is below [- maxAgeSeconds], and in between, both
    bounds included, it goes on to the signature check and does not
    reject for staleness: the outcome is a rejection for staleness
    exactly when the age is outside the two bounds.  The clock, the
    timestamp, the age and the bound are safe integers, on which the
    numbers of the code are the integers here and print as their
    digits. *)
Theorem verify_freshness_bound (now : Z) (payload : Payload)
    (sig ts secret : string) (maxAgeSeconds : option Z) (t : Z) :
  let maxAge := match maxAgeSeconds with Some m => m | None => 300 end in
  let age := now - t in
  let outcome :=
    verify now payload (Some sig) (Some ts) secret (mkOptions maxAgeSeconds) in
  sig <> "" -> ts <> "" -> secret <> "" -> JS.parseInt ts = Some t ->
  0 < maxAge ->
  safeInteger now -> safeInteger t -> safeInteger age -> safeInteger maxAge ->
  (maxAge < age ->
   outcome = Throw (WebhookSignatureError (tooOld age maxAge)))
  /\ (age < - maxAge ->
      outcome = Throw (WebhookSignatureError (tooFarInFuture age maxAge)))
  /\ (- maxAge <= age <= maxAge ->
      outcome = verifySignature payload sig ts secret /\ ~ stale outcome)
  /\ (stale outcome <-> maxAge < age \/ age < - maxAge).
Proof.
  intros maxAge age outcome Hsig Hts Hsecret Ht Hpos _ _ _ _. subst outcome.
  rewrite (verify_parsed now payload sig ts secret (mkOptions maxAgeSeconds) t)
    by assumption.
  change (maxAgeOf (mkOptions maxAgeSeconds)) with maxAge.
  rewrite checkFreshness_cases. fold age.
  destruct (Z.gtb_spec maxAge 0) as [_ | Hle]; [| lia].
  destruct (Z.gtb_spec age maxAge) as [Hold | Hold];
    [| destruct (Z.ltb_spec age (- maxAge)) as [Hfuture | Hfuture]];
    cbn [bind].
  - split; [reflexivity | split; [lia | split; [lia |]]].
    split; [now left |]. intros _. exists age, maxAge. now left.
  - split; [lia | split; [reflexivity | split; [lia |]]].
    split; [now right |]. intros _. exists age, maxAge. now right.
  - pose proof (verifySignature_not_stale payload sig ts secret) as Hfresh.
    split; [lia | split; [lia | split; [now split |]]].
    split; [contradiction | lia].
Qed.

(** What [verify] can end in, whatever its arguments. *)
Lemma verify_outcomes (now : Z) (payload : Payload) (sig ts : option string)
    (secret : string) (options : WebhookVerifyOptions) :
  let outcome := verify now payload sig ts secret options in
  outcome = Throw (WebhookSignatureError "Missing X-NOPE-Signature header")
  \/ outcome = Throw (WebhookSignatureError "Missing X-NOPE-Timestamp header")
  \/ outcome = Throw (WebhookSignatureError "Webhook secret is required")
  \/ outcome = Throw (WebhookSignatureError "Invalid timestamp format")
  \/ (exists sig' ts' t,
        sig = Some sig' /\ ts = Some ts' /\ JS.parseInt ts' = Some t
        /\ sig' <> "" /\ ts' <> "" /\ secret <> ""
        /\ outcome = (checkFreshness now t (maxAgeOf options) ;;;
                      verifySignature payload sig' ts' secret)).
Proof.
  intro outcome. subst outcome.
  destruct sig as [[|c sig] |]; [tauto | | tauto].
  destruct ts as [[|d ts] |]; [tauto | | tauto].
  destruct secret as [|k secret]; [tauto |].
  destruct (JS.parseInt (String d ts)) as [t |] eqn:Ht.
  - do 4 right. exists (String c sig), (String d ts), t.
    repeat split; try discriminate; try assumption.
    now apply verify_parsed.
  - right; right; right; left.
    rewrite verify_present by discriminate. now rewrite Ht.
Qed.

(** C4.  With [maxAgeSeconds = 0] no call of [verify] is rejected for
    staleness, whatever the timestamp and the clock, and the outcome
    does not depend on the clock: it is decided by the presence of the
    inputs, the parse of the timestamp and the signature. *)
Theorem verify_freshness_disabled (now now' : Z) (payload : Payload)
    (sig ts : option string) (secret : string) :
  ~ stale (verify now payload sig ts secret (mkOptions (Some 0)))
  /\ verify now payload sig ts secret (mkOptions (Some 0))
     = verify now' payload sig ts secret (mkOptions (Some 0)).
Proof.
  split.
  - intros (age & maxAge & H).
    destruct (verify_outcomes now payload sig ts secret (mkOptions (Some 0)))
      as [Hv | [Hv | [Hv | [Hv | (sig' & ts' & t & _ & _ & _ & _ & _ & _ & Hv)]]]];
      rewrite Hv in H; try (destruct H as [H | H]; messages H).
    rewrite checkFreshness_disabled in H by (cbn; lia). cbn [bind] in H.
    apply (verifySignature_not_stale payload sig' ts' secret).
    now exists age, maxAge.
  - (* the freshness block computes to [Return tt] under every branch *)
    reflexivity.
Qed.

(** C5, as the code has it.  With the three inputs present, [verify]
    rejects with "Invalid timestamp format", whatever the clock, the
    payload, the signature and the options, exactly when the timestamp
    does not start with an integer: after leading white space and one
    optional sign, no digit comes first.  What follows the digits plays
    no part. *)
Theorem verify_timestamp_format (now : Z) (payload : Payload)
    (sig ts secret : string) (options : WebhookVerifyOptions) :
  sig <> "" -> ts <> "" -> secret <> "" ->
  (verify now payload (Some sig) (Some ts) secret options
   = Throw (WebhookSignatureError "Invalid timestamp format")
   <-> startsWithInteger ts = false).
Proof.
  intros Hsig Hts Hsecret. rewrite <- JSFacts.parseInt_None_iff.
  rewrite verify_present by assumption.
  destruct (JS.parseInt ts) as [t |]; cbn [bind]; [| tauto].
  split; [| discriminate]. intro H. exfalso.
  rewrite checkFreshness_cases in H.
  destruct (maxAgeOf options >? 0);
    [destruct (now - t >? maxAgeOf options);
     [messages H | destruct (now - t <? - maxAgeOf options); [messages H |]] |];
    cbn [bind] in H;
    destruct (verifySignature_outcomes payload sig ts secret)
      as [[v Hv] | [Hv | [Hv | [Hv | [thrown Hv]]]]];
    rewrite Hv in H; discriminate H.
Qed.

(** The two reasons of the freshness block are among the reasons of
    [verify]. *)
Lemma descriptive_stale (age maxAge : Z) :
  descriptive (tooOld age maxAge) /\ descriptive (tooFarInFuture age maxAge).
Proof.
  unfold descriptive, tooOld, tooFarInFuture. split.
  - do 4 right. left. eexists. reflexivity.
  - do 5 right. left. eexists. reflexivity.
Qed.

(** C6, as the code has it.  A missing or empty signature, a missing or
    empty timestamp and an empty secret each give their own reason, in
    that order.  With the three present, a timestamp that [parseInt]
    cannot read gives "Invalid timestamp format"; on safe integers a
    timestamp older than the bound gives the reason "too old" and one
    further ahead than the bound the reason "too far in future", each
    with the age and the bound; and a timestamp that passes, with a
    payload that is serialized and a signature that is not the
    expected HMAC, gives "Signature verification failed".  Whenever
    [verify] throws, it throws a [WebhookSignatureError] with one of
    these seven reasons, or what [JSON.stringify] throws on an object
    payload (step 4), or the [SyntaxError] of the final [JSON.parse]
    of a string payload whose signature was accepted (step 8). *)
Theorem verify_failure_kinds (now : Z) (payload : Payload)
    (sig ts : option string) (secret : string) (options : WebhookVerifyOptions) :
  let maxAge := maxAgeOf options in
  let outcome := verify now payload sig ts secret options in
  (missing sig ->
   outcome = Throw (WebhookSignatureError "Missing X-NOPE-Signature header"))
  /\ (~ missing sig -> missing ts ->
      outcome = Throw (WebhookSignatureError "Missing X-NOPE-Timestamp header"))
  /\ (~ missing sig -> ~ missing ts -> secret = "" ->
      outcome = Throw (WebhookSignatureError "Webhook secret is required"))
  /\ (forall sig' ts',
        sig = Some sig' -> ts = Some ts' ->
        sig' <> "" -> ts' <> "" -> secret <> "" ->
        (JS.parseInt ts' = None ->
         outcome = Throw (WebhookSignatureError "Invalid timestamp format"))
        /\ (forall t,
              JS.parseInt ts' = Some t ->
              safeInteger now -> safeInteger t -> safeInteger (now - t) ->
              safeInteger maxAge ->
              (0 < maxAge -> maxAge < now - t ->
               outcome = Throw (WebhookSignatureError (tooOld (now - t) maxAge)))
              /\ (0 < maxAge -> now - t < - maxAge ->
                  outcome
                  = Throw (WebhookSignatureError (tooFarInFuture (now - t) maxAge)))
              /\ (forall payloadString,
                    (0 < maxAge -> - maxAge <= now - t <= maxAge) ->
                    stringifyPayload payload = Return payloadString ->
                    JS.replacePrefix "sha256=" sig'
                    <> hmacSha256Hex secret
                         (ts' ++ "." ++ interpolate payloadString) ->
                    outcome
                    = Throw (WebhookSignatureError "Signature verification failed"))))
  /\ (forall e,
        outcome = Throw e ->
        (exists reason, e = WebhookSignatureError reason /\ descriptive reason)
        \/ (exists o, payload = PObject o /\ refuses o e)
        \/ (e = SyntaxError
            /\ exists s, payload = PString s /\ JSON_parse s = None)).
Proof.
  intros maxAge outcome. subst maxAge outcome.
  unfold missing. split; [| split; [| split; [| split]]].
  - intros [-> | ->]; reflexivity.
  - intros Hsig [-> | ->]; destruct sig as [[|c sig] |];
      first [reflexivity | tauto].
  - intros Hsig Hts ->.
    destruct sig as [[|c sig] |]; try tauto.
    destruct ts as [[|d ts] |]; first [reflexivity | tauto].
  - intros sig' ts' -> -> Hsig Hts Hsecret. split.
    + intro Ht. rewrite verify_present by assumption. now rewrite Ht.
    + intros t Ht _ _ _ _.
      rewrite (verify_parsed now payload sig' ts' secret options t) by assumption.
      rewrite checkFreshness_cases. split; [| split].
      * intros Hpos Hold.
        destruct (Z.gtb_spec (maxAgeOf options) 0); [| lia].
        destruct (Z.gtb_spec (now - t) (maxAgeOf options)); [reflexivity | lia].
      * intros Hpos Hfuture.
        destruct (Z.gtb_spec (maxAgeOf options) 0); [| lia].
        destruct (Z.gtb_spec (now - t) (maxAgeOf options)); [lia |].
        destruct (Z.ltb_spec (now - t) (- maxAgeOf options)); [reflexivity | lia].
      * intros payloadString Hfresh Hs Hne.
        rewrite <- checkFreshness_cases.
        rewrite (proj2 (checkFreshness_Return_iff _ _ _) Hfresh). cbn [bind].
        unfold verifySignature. rewrite Hs. cbn [bind].
        rewrite checkSignature_eqb.
        destruct (String.eqb_spec
                    (hmacSha256Hex secret (ts' ++ "." ++ interpolate payloadString))
                    (JS.replacePrefix "sha256=" sig')) as [He | _];
          [now rewrite He in Hne | reflexivity].
  - intros e He.
    destruct (verify_outcomes now payload sig ts secret options)
      as [Hv | [Hv | [Hv | [Hv | (sig' & ts' & t & _ & _ & _ & _ & _ & _ & Hv)]]]];
      rewrite Hv in He;
      try (injection He as <-; left; eexists; split; [reflexivity |];
           unfold descriptive; tauto).
    clear Hv.
    destruct (checkFreshness now t (maxAgeOf options)) as [[] | e'] eqn:Hf;
      cbn [bind] in He.
    2:{ injection He as <-. left. rewrite checkFreshness_cases in Hf.
        destruct (maxAgeOf options >? 0); [| discriminate Hf].
        destruct (now - t >? maxAgeOf options);
          [injection Hf as <-; eexists; split;
           [reflexivity | apply descriptive_stale] |].
        destruct (now - t <? - maxAgeOf options); [| discriminate Hf].
        injection Hf as <-. eexists. split; [reflexivity | apply descriptive_stale]. }
    unfold verifySignature in He.
    destruct (stringifyPayload payload) as [ps | e'] eqn:Hs; cbn [bind] in He.
    + rewrite checkSignature_eqb in He.
      destruct (String.eqb _ _); cbn [bind] in He.
      * right; right. unfold parsePayload in He.
        destruct payload as [s | o]; [| discriminate He].
        destruct (JSON_parse s) eqn:Hp; [discriminate He |].
        injection He as <-. split; [reflexivity | eauto].
      * injection He as <-. left. eexists. split; [reflexivity |].
        unfold descriptive. tauto.
    + right; left. injection He as <-. unfold stringifyPayload in Hs.
      destruct payload as [s | o]; [discriminate Hs |]. exists o.
      split; [reflexivity |]. unfold refuses.
      destruct (JSON_stringify o) as [s | | message | thrown] eqn:Ho;
        try discriminate Hs; injection Hs as <-; [left | right]; eauto.
Qed.

(** C7.  The comparison step rejects two strings of equal length that
    are not identical, and it rejects two strings of different lengths
    as well, by a rejection and not by an exception of its own: the
    comparison returns [false], the step throws the
    [WebhookSignatureError], and for hexadecimal strings of different
    lengths the [RangeError] of [timingSafeEqual] is the one caught. *)
Theorem comparison_rejects (expected received : string) :
  (String.length expected = String.length received -> expected <> received ->
   compareSignatures expected received = Return false
   /\ checkSignature expected received
      = Throw (WebhookSignatureError "Signature verification failed"))
  /\ (String.length expected <> String.length received ->
      compareSignatures expected received = Return false
      /\ checkSignature expected received
         = Throw (WebhookSignatureError "Signature verification failed")
      /\ (isHex expected = true -> isHex received = true ->
          JS.timingSafeEqual (JS.Buffer_from expected) (JS.Buffer_from received)
          = Throw RangeError)).
Proof.
  assert (Hreject : expected <> received ->
            compareSignatures expected received = Return false
            /\ checkSignature expected received
               = Throw (WebhookSignatureError "Signature verification failed")).
  { intro Hne. rewrite checkSignature_eqb, compareSignatures_eqb.
    apply String.eqb_neq in Hne. now rewrite Hne. }
  split.
  - intros _ Hne. now apply Hreject.
  - intro Hlen.
    assert (Hne : expected <> received) by (intros ->; now apply Hlen).
    destruct (Hreject Hne) as [Hc Hs]. split; [exact Hc | split; [exact Hs |]].
    intros He Hr. unfold JS.timingSafeEqual.
    rewrite (BufferFacts.isHex_length _ He), (BufferFacts.isHex_length _ Hr).
    apply Nat.eqb_neq in Hlen. now rewrite Hlen.
Qed.

(** [verify] past its checks: what is left is the parse of the
    payload. *)
Lemma verify_checks_passed (now : Z) (payload : Payload)
    (sig ts secret : string) (options : WebhookVerifyOptions)
    (t : Z) (payloadString : option string) :
  sig <> "" -> ts <> "" -> secret <> "" ->
  JS.parseInt ts = Some t ->
  checkFreshness now t (maxAgeOf options) = Return tt ->
  stringifyPayload payload = Return payloadString ->
  checkSignature (hmacSha256Hex secret (ts ++ "." ++ interpolate payloadString))
                 (JS.replacePrefix "sha256=" sig) = Return tt ->
  verify now payload (Some sig) (Some ts) secret options = parsePayload payload.
Proof.
  intros Hsig Hts Hsecret Ht Hfresh Hstr Hcheck.
  rewrite (verify_parsed now payload sig ts secret options t) by assumption.
  rewrite Hfresh. cbn [bind]. unfold verifySignature.
  rewrite Hstr. cbn [bind]. now rewrite Hcheck.
Qed.


Lemma stripPrefix_prefixed (prefix s : string) :
  JS.stripPrefix prefix (prefix ++ s) = Some s.
Proof.
  induction prefix as [|c prefix IH]; cbn [append JS.stripPrefix]; [reflexivity |].
  now rewrite Ascii.eqb_refl.
Qed.

Lemma replacePrefix_prefixed (prefix s : string) :
  JS.replacePrefix prefix (prefix ++ s) = s.
Proof. unfold JS.replacePrefix. now rewrite stripPrefix_prefixed. Qed.

Lemma stripPrefix_Some (prefix s rest : string) :
  JS.stripPrefix prefix s = Some rest -> s = prefix ++ rest.
Proof.
  revert s; induction prefix as [|c prefix IH]; intros [|d s];
    cbn [JS.stripPrefix append]; try congruence.
  destruct (Ascii.eqb_spec c d) as [-> | _]; [| discriminate].
  intro H. f_equal. now apply IH.
Qed.

(** What [sign] returns, when it returns. *)
Lemma sign_returns (now : Z) (payload : Payload) (secret : string)
    (stamp : option Z) (signed : Signed) :
  sign now payload secret stamp = Return signed ->
  let ts := match stamp with Some t => t | None => now end in
  exists payloadString,
    stringifyPayload payload = Return payloadString
    /\ signature signed
       = "sha256=" ++ hmacSha256Hex secret
                        (JS.toString ts ++ "." ++ interpolate payloadString)
    /\ timestamp signed = JS.toString ts.
Proof.
  intros H ts. unfold sign in H. fold ts in H.
  destruct (stringifyPayload payload) as [ps | e]; [| discriminate H].
  cbn [bind] in H. injection H as <-. exists ps. cbn. auto.
Qed.

(** C1, as the code has it.  For a payload that [sign] accepts (every
    string, every object that [JSON.stringify] serializes), a secret
    that is not empty and an integer timestamp within the freshness
    window of the clock, [verify] on the signature and the timestamp of
    [sign] passes every check; it returns the object itself, or what
    [JSON.parse] makes of the string, and throws the [SyntaxError] of
    [JSON.parse] when the string is not JSON. *)
Theorem sign_verify_round_trip (now now' : Z) (payload : Payload)
    (secret : string) (stamp : option Z) (options : WebhookVerifyOptions)
    (signed : Signed) :
  secret <> "" ->
  (let ts := match stamp with Some t => t | None => now' end in
   0 < maxAgeOf options -> - maxAgeOf options <= now - ts <= maxAgeOf options) ->
  sign now' payload secret stamp = Return signed ->
  verify now payload (Some (signature signed)) (Some (timestamp signed))
    secret options
  = match payload with
    | PObject o => Return o
    | PString s =>
        match JSON_parse s with
        | Some parsed => Return parsed
        | None => Throw SyntaxError
        end
    end.
Proof.
  intros Hsecret Hwindow Hsign.
  destruct (sign_returns _ _ _ _ _ Hsign) as (ps & Hstr & Hsig & Hts).
  cbv zeta in Hwindow.
  set (ts := match stamp with Some t => t | None => now' end) in *.
  transitivity (parsePayload payload); [| now destruct payload].
  apply (verify_checks_passed now payload _ _ secret options ts ps).
  - rewrite Hsig. discriminate.
  - rewrite Hts. apply JSFacts.toString_not_empty.
  - exact Hsecret.
  - rewrite Hts. apply JSFacts.parseInt_toString.
  - destruct (Z.ltb_spec 0 (maxAgeOf options)).
    + now apply checkFreshness_fresh, Hwindow.
    + now apply checkFreshness_disabled.
  - exact Hstr.
  - rewrite Hsig, Hts, replacePrefix_prefixed. apply checkSignature_same.
Qed.

(** [sign] accepts every string payload. *)
Lemma sign_string (now : Z) (s secret : string) (stamp : option Z) :
  exists signed, sign now (PString s) secret stamp = Return signed.
Proof. unfold sign. cbn. eauto. Qed.

(** *** Tampering (C2)

    An altered signature is rejected, whatever the alteration.  An
    altered payload or timestamp is rejected unless the HMAC of the
    altered message is the HMAC of the signed one: that a single
    flipped bit never gives such a collision is a property of
    HMAC-SHA256 and not of this code. *)

(** A signature of the length of the signed one, and different from it,
    is rejected. *)
Lemma altered_signature_rejected (now now' : Z) (payload : Payload)
    (secret : string) (stamp : option Z) (options : WebhookVerifyOptions)
    (signed : Signed) (sig : string) :
  secret <> "" ->
  (let ts := match stamp with Some t => t | None => now' end in
   0 < maxAgeOf options -> - maxAgeOf options <= now - ts <= maxAgeOf options) ->
  sign now' payload secret stamp = Return signed ->
  String.length sig = String.length (signature signed) ->
  sig <> signature signed ->
  verify now payload (Some sig) (Some (timestamp signed)) secret options
  = Throw (WebhookSignatureError "Signature verification failed").
Proof.
  intros Hsecret Hwindow Hsign Hlen Hne.
  destruct (sign_returns _ _ _ _ _ Hsign) as (ps & Hstr & Hsig & Hts).
  cbv zeta in Hwindow.
  set (ts := match stamp with Some t => t | None => now' end) in *.
  assert (Hsig' : sig <> "").
  { intros ->. rewrite Hsig in Hlen. discriminate Hlen. }
  rewrite (verify_parsed now payload sig _ secret options ts);
    [| assumption | rewrite Hts; apply JSFacts.toString_not_empty | assumption
     | rewrite Hts; apply JSFacts.parseInt_toString ].
  replace (checkFreshness now ts (maxAgeOf options)) with (Return tt).
  2:{ symmetry. destruct (Z.ltb_spec 0 (maxAgeOf options)).
      - now apply checkFreshness_fresh, Hwindow.
      - now apply checkFreshness_disabled. }
  cbn [bind]. unfold verifySignature. rewrite Hstr. cbn [bind].
  rewrite checkSignature_eqb, Hts.
  set (expected := hmacSha256Hex secret _) in *.
  destruct (String.eqb_spec expected (JS.replacePrefix "sha256=" sig)) as [He | _];
    [exfalso | reflexivity].
  unfold JS.replacePrefix in He.
  destruct (JS.stripPrefix "sha256=" sig) as [rest |] eqn:Hstrip.
  - apply Hne. rewrite Hsig. subst rest. now apply stripPrefix_Some.
  - subst sig. rewrite Hsig in Hlen. cbn [String.length append] in Hlen. lia.
Qed.

Lemma flipBit_changes (i : nat) (c : ascii) : (i < 8)%nat -> flipBit i c <> c.
Proof.
  intro Hi. destruct c as [b0 b1 b2 b3 b4 b5 b6 b7].
  do 8 (destruct i as [|i];
        [cbn [flipBit]; intro H; injection H;
         repeat match goal with b : bool |- _ => destruct b end; discriminate |]).
  lia.
Qed.

Lemma flipAt_length (position i : nat) (s : string) :
  String.length (flipAt position i s) = String.length s.
Proof.
  revert position; induction s as [|c s IH]; intros [|position];
    cbn [flipAt String.length]; auto.
Qed.

Lemma flipAt_changes (position i : nat) (s : string) :
  (position < String.length s)%nat -> (i < 8)%nat -> flipAt position i s <> s.
Proof.
  revert position; induction s as [|c s IH]; intros position Hp Hi;
    cbn [String.length] in Hp; [lia |].
  destruct position as [|position]; cbn [flipAt]; intro H; injection H.
  - now apply flipBit_changes.
  - apply IH; [lia | exact Hi].
Qed.

(** One flipped bit in the signature string of [sign]: rejected. *)
Lemma flipped_signature_rejected (now now' : Z) (payload : Payload)
    (secret : string) (stamp : option Z) (options : WebhookVerifyOptions)
    (signed : Signed) (position i : nat) :
  secret <> "" ->
  (let ts := match stamp with Some t => t | None => now' end in
   0 < maxAgeOf options -> - maxAgeOf options <= now - ts <= maxAgeOf options) ->
  sign now' payload secret stamp = Return signed ->
  (position < String.length (signature signed))%nat -> (i < 8)%nat ->
  verify now payload (Some (flipAt position i (signature signed)))
    (Some (timestamp signed)) secret options
  = Throw (WebhookSignatureError "Signature verification failed").
Proof.
  intros Hsecret Hwindow Hsign Hp Hi.
  apply (altered_signature_rejected now now' payload secret stamp options signed);
    try assumption.
  - apply flipAt_length.
  - now apply flipAt_changes.
Qed.

(** A call that passes the signature check has a received signature
    that is the HMAC of the timestamp, a dot and the canonical payload
    as they were received: an altered payload or timestamp passes only
    with a signature that is the HMAC of the altered message. *)
Lemma accepted_signature_is_hmac (now : Z) (payload : Payload)
    (sig ts : option string) (secret : string) (options : WebhookVerifyOptions) :
  (exists v, verify now payload sig ts secret options = Return v)
  \/ verify now payload sig ts secret options = Throw SyntaxError ->
  exists sig' ts' payloadString,
    sig = Some sig' /\ ts = Some ts'
    /\ stringifyPayload payload = Return payloadString
    /\ JS.replacePrefix "sha256=" sig'
       = hmacSha256Hex secret (ts' ++ "." ++ interpolate payloadString).
Proof.
  intro H.
  destruct (verify_outcomes now payload sig ts secret options)
    as [Hv | [Hv | [Hv | [Hv | (sig' & ts' & t & -> & -> & _ & _ & _ & _ & Hv)]]]];
    rewrite Hv in H; try (destruct H as [[v H] | H]; discriminate H).
  exists sig', ts'. clear Hv.
  destruct (checkFreshness now t (maxAgeOf options)) as [[] | e] eqn:Hf;
    cbn [bind] in H.
  2:{ destruct H as [[v H] | H]; [discriminate H |]. injection H as ->.
      rewrite checkFreshness_cases in Hf.
      repeat match type of Hf with
             | (if ?b then _ else _) = _ => destruct b
             end; discriminate Hf. }
  unfold verifySignature in H.
  destruct (stringifyPayload payload) as [ps | e] eqn:Hs; cbn [bind] in H.
  2:{ destruct H as [[v H] | H]; [discriminate H |]. injection H as ->.
      unfold stringifyPayload in Hs. destruct payload as [s | o]; [discriminate Hs |].
      destruct (JSON_stringify o); discriminate Hs. }
  exists ps. split; [reflexivity | split; [reflexivity | split; [reflexivity |]]].
  rewrite checkSignature_eqb in H.
  destruct (String.eqb_spec
              (hmacSha256Hex secret (ts' ++ "." ++ interpolate ps))
              (JS.replacePrefix "sha256=" sig')) as [He | _];
    [now symmetry | destruct H as [[v H] | H]; discriminate H].
Qed.

(** An altered string payload and timestamp, each of the length it had
    when signed, that are accepted under the signature of [sign]: the
    two messages are different and have the same HMAC. *)
Lemma accepted_alteration_is_collision (now now' : Z) (s s' : string)
    (secret : string) (t : Z) (ts' : string) (options : WebhookVerifyOptions)
    (signed : Signed) :
  sign now' (PString s) secret (Some t) = Return signed ->
  String.length ts' = String.length (JS.toString t) ->
  (s', ts') <> (s, JS.toString t) ->
  (exists v, verify now (PString s') (Some (signature signed)) (Some ts') secret
               options = Return v)
  \/ verify now (PString s') (Some (signature signed)) (Some ts') secret options
     = Throw SyntaxError ->
  let signedMessage := JS.toString t ++ "." ++ s in
  let alteredMessage := ts' ++ "." ++ s' in
  alteredMessage <> signedMessage
  /\ hmacSha256Hex secret alteredMessage = hmacSha256Hex secret signedMessage.
Proof.
  intros Hsign Hlen Hne Haccepted signedMessage alteredMessage.
  destruct (sign_returns _ _ _ _ _ Hsign) as (ps & Hstr & Hsig & _).
  cbn in Hstr. injection Hstr as <-. cbn [interpolate] in Hsig.
  destruct (accepted_signature_is_hmac _ _ _ _ _ _ Haccepted)
    as (sig' & ts'' & ps' & Hs1 & Hs2 & Hstr' & Hmac).
  injection Hs1 as <-. injection Hs2 as <-.
  cbn in Hstr'. injection Hstr' as <-. cbn [interpolate] in Hmac.
  rewrite Hsig, replacePrefix_prefixed in Hmac.
  split; [| now symmetry].
  subst signedMessage alteredMessage. intro Heq. apply Hne.
  assert (Happ : forall a b x y : string,
             String.length a = String.length b -> a ++ x = b ++ y ->
             a = b /\ x = y).
  { induction a as [|c a IH]; intros [|d b] x y Hl Hxy;
      cbn [String.length] in Hl; try discriminate; cbn [append] in Hxy.
    - now split.
    - injection Hxy as -> Hxy. injection Hl as Hl.
      destruct (IH b x y Hl Hxy) as [-> ->]. now split. }
  destruct (Happ _ _ _ _ Hlen Heq) as [-> Hrest].
  injection Hrest as ->. reflexivity.
Qed.

End WebhookProperties.

(** ** client.ts *)

Module NumberFacts.

Import JS.

Lemma Qred_inject_Z (z : Z) : Qred (inject_Z z) = inject_Z z.
Proof. apply Qred_identity. cbn. apply Z.gcd_1_r. Qed.

Lemma readDigits_allDigits (s : string) (value count : Z) :
  allDigits s = true ->
  readDigits s value count
  = (match digits s (Some value) with Some v => v | None => value end,
     count + Z.of_nat (String.length s), "").
Proof.
  revert value count; induction s as [|c s IH]; intros value count H.
  - cbn [readDigits digits String.length Z.of_nat]. now rewrite Z.add_0_r.
  - cbn [allDigits] in H. apply andb_true_iff in H as [Hc Hs].
    unfold isDigit in Hc. cbn [readDigits digits String.length].
    destruct (digit c) as [d |]; [| discriminate].
    rewrite IH by exact Hs. rewrite Nat2Z.inj_succ.
    replace (count + 1 + Z.of_nat (String.length s))
      with (count + Z.succ (Z.of_nat (String.length s))) by lia.
    now destruct (JSFacts.digits_some s (10 * value + d)) as [v ->].
Qed.

Lemma uint_allDigits (d : Decimal.uint) :
  allDigits (NilEmpty.string_of_uint d) = true.
Proof. induction d; cbn [NilEmpty.string_of_uint allDigits]; auto. Qed.

Lemma uint_length_pos (d : Decimal.uint) :
  d <> Decimal.Nil -> 0 < Z.of_nat (String.length (NilEmpty.string_of_uint d)).
Proof.
  destruct d; intro H;
    [congruence | cbn [NilEmpty.string_of_uint String.length]; lia ..].
Qed.

Lemma decimalLiteral_uint (negative : bool) (d : Decimal.uint) :
  d <> Decimal.Nil ->
  decimalLiteral negative (NilEmpty.string_of_uint d)
  = Num (inject_Z (if negative then - Z.of_N (Pos.of_uint d)
                   else Z.of_N (Pos.of_uint d))).
Proof.
  intro Hnil. unfold decimalLiteral.
  rewrite readDigits_allDigits by apply uint_allDigits.
  rewrite JSFacts.digits_zero. cbv beta iota zeta.
  pose proof (uint_length_pos d Hnil) as Hlen.
  destruct (Z.eqb_spec (0 + Z.of_nat (String.length (NilEmpty.string_of_uint d))) 0);
    [lia |].
  cbn [andb readExponent]. unfold scale10.
  change (0 <=? 0 - 0) with true. cbv iota.
  change (10 ^ (0 - 0)) with 1. rewrite Z.mul_1_r. now rewrite Qred_inject_Z.
Qed.

Lemma parseFloat_digits (s : string) :
  startsWithDigit s = true -> parseFloat s = decimalLiteral false s.
Proof.
  destruct s as [|c s]; [discriminate |].
  destruct c as [[] [] [] [] [] [] [] []]; try discriminate; reflexivity.
Qed.

(** [parseFloat] reads the decimal digits of an integer back. *)
Theorem parseFloat_toString (n : Z) : parseFloat (toString n) = Num (inject_Z n).
Proof.
  unfold toString. destruct n as [|p|p]; cbn [Z.to_int NilEmpty.string_of_int].
  - reflexivity.
  - pose proof (DecimalPos.Unsigned.to_uint_nonnil p) as Hnil.
    rewrite parseFloat_digits by now apply JSFacts.uint_startsWithDigit.
    rewrite decimalLiteral_uint by exact Hnil.
    now rewrite DecimalPos.Unsigned.of_to.
  - pose proof (DecimalPos.Unsigned.to_uint_nonnil p) as Hnil.
    transitivity (decimalLiteral true (NilEmpty.string_of_uint (Pos.to_uint p))).
    + destruct (Pos.to_uint p); [congruence | reflexivity ..].
    + rewrite decimalLiteral_uint by exact Hnil.
      now rewrite DecimalPos.Unsigned.of_to.
Qed.

Lemma times1000_integer (n : Z) :
  times1000 (Num (inject_Z n)) = Num (inject_Z (n * 1000)).
Proof.
  unfold times1000. f_equal.
  change (inject_Z n * inject_Z 1000)%Q with (inject_Z (n * 1000)).
  apply Qred_inject_Z.
Qed.

End NumberFacts.

Section ClientProperties.

Context {host : Host}.

(** A call of [request] hands at most one request to [fetch], and on a
    response that [fetch] resolves with, its outcome is that of
    [handleResponse]: the errors of the response are not wrapped. *)
Lemma request_resolved (client : NopeClient) (method path : string)
    (value : JsValue) (s : string) (response : Response) (log : list Request) :
  JSON_stringify value = Text s ->
  fetch (requestOf client method path (Some s)) = Resolved response ->
  request client method path (Some value) log
  = (handleResponse response,
     List.app log [requestOf client method path (Some s)]).
Proof. intros Hs Hf. unfold request. now rewrite Hs, Hf. Qed.

(** With exactly one of [messages] and [text] and a payload that is
    serialized, [evaluate] hands one request to [fetch]. *)
Lemma evaluate_reaches_fetch (client : NopeClient) (options : EvaluateOptions)
    (s : string) (log : list Request) :
  (evMessages options = None <-> evText options <> None) ->
  JSON_stringify (evaluatePayload options) = Text s ->
  snd (evaluate client options log)
  = List.app log [requestOf client "POST" "/v1/evaluate" (Some s)].
Proof.
  intros Hone Hs. unfold evaluate, request. rewrite Hs.
  destruct (evMessages options), (evText options); cbn [isUndefined andb negb].
  1,4: exfalso; destruct Hone as [H1 H2].
  1: assert (Hn : Some j = None) by (apply H2; discriminate);
     discriminate Hn.
  1: now apply (H1 eq_refl).
  all: now destruct (fetch _).
Qed.

(** With exactly one of [messages] and [text], [evaluate] and [screen]
    are the request of their payload. *)
Lemma evaluate_is_request (client : NopeClient) (options : EvaluateOptions)
    (log : list Request) :
  (evMessages options = None <-> evText options <> None) ->
  evaluate client options log
  = request client "POST" "/v1/evaluate" (Some (evaluatePayload options)) log.
Proof.
  intro Hone. unfold evaluate.
  destruct (evMessages options) as [m |], (evText options) as [t |];
    cbn [isUndefined andb negb]; try reflexivity; exfalso.
  - assert (Hn : Some m = None) by (apply Hone; discriminate). discriminate Hn.
  - now apply (proj1 Hone eq_refl).
Qed.

Lemma screen_is_request (client : NopeClient) (options : ScreenOptions)
    (log : list Request) :
  (scMessages options = None <-> scText options <> None) ->
  screen client options log
  = request client "POST" "/v1/screen" (Some (screenPayload options)) log.
Proof.
  intro Hone. unfold screen.
  destruct (scMessages options) as [m |], (scText options) as [t |];
    cbn [isUndefined andb negb]; try reflexivity; exfalso.
  - assert (Hn : Some m = None) by (apply Hone; discriminate). discriminate Hn.
  - now apply (proj1 Hone eq_refl).
Qed.



(** C8.  [evaluate] and [screen] called with neither [messages] nor
    [text], or with both, throw their validation error and hand nothing
    to [fetch]; a call that hands a request to [fetch] has exactly one
    of the two. *)
Theorem validation_before_fetch (client : NopeClient) (log : list Request) :
  (forall options : EvaluateOptions,
     (evMessages options = None -> evText options = None ->
      evaluate client options log
      = (Throw (Error "Either 'messages' or 'text' must be provided"), log))
     /\ (evMessages options <> None -> evText options <> None ->
         evaluate client options log
         = (Throw (Error "Only one of 'messages' or 'text' can be provided, not both"),
            log))
     /\ (snd (evaluate client options log) <> log ->
         (evMessages options = None <-> evText options <> None)))
  /\ (forall options : ScreenOptions,
        (scMessages options = None -> scText options = None ->
         screen client options log
         = (Throw (Error "Either 'messages' or 'text' must be provided"), log))
        /\ (scMessages options <> None -> scText options <> None ->
            screen client options log
            = (Throw (Error "Only one of 'messages' or 'text' can be provided, not both"),
               log))
        /\ (snd (screen client options log) <> log ->
            (scMessages options = None <-> scText options <> None))).
Proof.
  split;
    [intros [messages text config userContext] | intros [messages text config]];
    cbn [evMessages evText scMessages scText];
    (split; [| split]).
  all: try (intros -> ->; reflexivity).
  all: try (intros Hm Ht; destruct messages; [| congruence];
            destruct text; [reflexivity | congruence]).
  all: destruct messages, text; cbn; intro H; try congruence;
    split; congruence.
Qed.

End ClientProperties.

(** ** The properties at work on Node *)

Lemma sign_verify_round_trip_witness :
  verify (host := Sample.node) 1700000120 (PString Sample.ping)
    (Some "sha256=517adbf639a9986e7f8da4799f94a2ba6722aa4a7819c6c492cd199f08cd5caf")
    (Some "1700000000") Sample.secret noOptions
  = Return (JSON.VObject [("event", JSON.VString "test.ping")]).
Proof.
  refine (sign_verify_round_trip (host := Sample.node) 1700000120 1700000000
            (PString Sample.ping) Sample.secret (Some 1700000000) noOptions
            (mkSigned
               "sha256=517adbf639a9986e7f8da4799f94a2ba6722aa4a7819c6c492cd199f08cd5caf"
               "1700000000") _ _ _).
  - discriminate.
  - cbn. lia.
  - vm_compute. reflexivity.
Defined.

(** C1 fails on a string payload that is not JSON: [sign] signs it,
    [verify] accepts the signature and then throws. *)
Lemma round_trip_throws_on_text_that_is_not_JSON :
  sign (host := Sample.node) 1700000000 (PString "not json") Sample.secret
    (Some 1700000000)
  = Return
      (mkSigned
         "sha256=426ca3e864aa421cbf54b4338752b4df427774498d696393231daac6a5b6922e"
         "1700000000")
  /\ verify (host := Sample.node) 1700000000 (PString "not json")
       (Some "sha256=426ca3e864aa421cbf54b4338752b4df427774498d696393231daac6a5b6922e")
       (Some "1700000000") Sample.secret noOptions
     = Throw SyntaxError.
Proof. split; vm_compute; reflexivity. Qed.

Lemma verify_freshness_bound_witness :
  verify (host := Sample.node) 1700000301 (PString Sample.ping) (Some "sha256=00")
    (Some "1700000000") Sample.secret noOptions
  = Throw (WebhookSignatureError "Timestamp too old: 301s ago (max: 300s)")
  /\ verify (host := Sample.node) 1699999699 (PString Sample.ping) (Some "sha256=00")
       (Some "1700000000") Sample.secret noOptions
     = Throw (WebhookSignatureError
                "Timestamp too far in future: 301s ahead (max: 300s)")
  /\ ~ stale (verify (host := Sample.node) 1700000300 (PString Sample.ping)
                (Some "sha256=00") (Some "1700000000") Sample.secret noOptions)
  /\ ~ stale (verify (host := Sample.node) 1699999700 (PString Sample.ping)
                (Some "sha256=00") (Some "1700000000") Sample.secret noOptions)
  /\ verify (host := Sample.node) 1700000061 (PString Sample.ping)
       (Some "sha256=00") (Some "1700000000") Sample.secret (mkOptions (Some 60))
     = Throw (WebhookSignatureError "Timestamp too old: 61s ago (max: 60s)")
  /\ ~ stale (verify (host := Sample.node) 1700000060 (PString Sample.ping)
                (Some "sha256=00") (Some "1700000000") Sample.secret
                (mkOptions (Some 60))).
Proof.
  pose proof (fun now maxAgeSeconds =>
                verify_freshness_bound (host := Sample.node) now
                  (PString Sample.ping) "sha256=00" "1700000000" Sample.secret
                  maxAgeSeconds 1700000000) as H.
  cbv zeta in H.
  split; [| split; [| split; [| split; [| split]]]].
  - apply (H 1700000301 None);
      first [discriminate | reflexivity | vm_compute; reflexivity].
  - apply (H 1699999699 None);
      first [discriminate | reflexivity | vm_compute; reflexivity].
  - apply (H 1700000300 None);
      first [discriminate | reflexivity | lia | vm_compute; reflexivity].
  - apply (H 1699999700 None);
      first [discriminate | reflexivity | lia | vm_compute; reflexivity].
  - apply (H 1700000061 (Some 60));
      first [discriminate | reflexivity | vm_compute; reflexivity].
  - apply (H 1700000060 (Some 60));
      first [discriminate | reflexivity | lia | vm_compute; reflexivity].
Defined.

(** C5 fails on a timestamp with text after its digits: it is not the
    decimal representation of an integer, and [verify] returns. *)
Lemma timestamp_with_trailing_text_accepted :
  isDecimalInteger "1700000000abc" = false
  /\ verify (host := Sample.node) 1700000000 (PString "{}")
       (Some ("sha256=" ++ Node.hmac Sample.secret ("1700000000abc" ++ "." ++ "{}")))
       (Some "1700000000abc") Sample.secret noOptions
     = Return (JSON.VObject []).
Proof. split; vm_compute; reflexivity. Qed.

Lemma verify_timestamp_format_witness :
  verify (host := Sample.node) 1700000000 (PString Sample.ping) (Some "sha256=00")
    (Some "yesterday") Sample.secret noOptions
  = Throw (WebhookSignatureError "Invalid timestamp format")
  /\ verify (host := Sample.node) 1700000000 (PString Sample.ping) (Some "sha256=00")
       (Some "1700000000abc") Sample.secret noOptions
     <> Throw (WebhookSignatureError "Invalid timestamp format").
Proof.
  split.
  - apply (verify_timestamp_format (host := Sample.node) 1700000000
             (PString Sample.ping) "sha256=00" "yesterday" Sample.secret noOptions);
      try discriminate; reflexivity.
  - intro H.
    apply (verify_timestamp_format (host := Sample.node) 1700000000
             (PString Sample.ping) "sha256=00" "1700000000abc" Sample.secret noOptions)
      in H; try discriminate.
Defined.

(** C6 fails on an object payload that [JSON.stringify] refuses: the
    [TypeError] leaves [verify] at step 4. *)
Lemma unserializable_payload_throws_TypeError :
  verify (host := Sample.node) 1700000000
    (@PObject Sample.node (JSON.VObject [("amount", JSON.VBigInt 1)]))
    (Some "sha256=00") (Some "1700000000") Sample.secret noOptions
  = Throw TypeError
  /\ forall reason, TypeError <> WebhookSignatureError reason.
Proof. split; [vm_compute; reflexivity | discriminate]. Qed.

Lemma verify_failure_kinds_witness :
  verify (host := Sample.node) 1700000000 (PString Sample.ping) None
    (Some "1700000000") Sample.secret noOptions
  = Throw (WebhookSignatureError "Missing X-NOPE-Signature header")
  /\ verify (host := Sample.node) 1700000000 (PString Sample.ping) (Some "sha256=00")
       (Some "") Sample.secret noOptions
     = Throw (WebhookSignatureError "Missing X-NOPE-Timestamp header")
  /\ verify (host := Sample.node) 1700000000 (PString Sample.ping) (Some "sha256=00")
       (Some "1700000000") "" noOptions
     = Throw (WebhookSignatureError "Webhook secret is required")
  /\ verify (host := Sample.node) 1700000000 (PString Sample.ping) (Some "sha256=00")
       (Some "yesterday") Sample.secret noOptions
     = Throw (WebhookSignatureError "Invalid timestamp format")
  /\ verify (host := Sample.node) 1700000000 (PString Sample.ping) (Some "sha256=00")
       (Some "1699990000") Sample.secret noOptions
     = Throw (WebhookSignatureError "Timestamp too old: 10000s ago (max: 300s)")
  /\ verify (host := Sample.node) 1700000000 (PString Sample.ping) (Some "sha256=00")
       (Some "1700000000") Sample.secret noOptions
     = Throw (WebhookSignatureError "Signature verification failed")
  /\ ((exists reason,
         WebhookSignatureError "Signature verification failed"
         = WebhookSignatureError reason /\ descriptive reason)
      \/ (exists o,
            PString Sample.ping = @PObject Sample.node o
            /\ refuses (host := Sample.node) o
                 (WebhookSignatureError "Signature verification failed"))
      \/ (WebhookSignatureError "Signature verification failed" = SyntaxError
          /\ exists s,
               @PString Sample.node Sample.ping = PString s
               /\ @JSON_parse Sample.node s = None)).
Proof.
  pose proof (fun sig ts secret =>
                verify_failure_kinds (host := Sample.node) 1700000000
                  (PString Sample.ping) sig ts secret noOptions) as H.
  cbv zeta in H.
  split; [| split; [| split; [| split; [| split; [| split]]]]].
  - apply (H None (Some "1700000000") Sample.secret). left. reflexivity.
  - apply (H (Some "sha256=00") (Some "") Sample.secret).
    + intros [E | E]; discriminate E.
    + right. reflexivity.
  - apply (H (Some "sha256=00") (Some "1700000000") "").
    + intros [E | E]; discriminate E.
    + intros [E | E]; discriminate E.
    + reflexivity.
  - destruct (H (Some "sha256=00") (Some "yesterday") Sample.secret)
      as (_ & _ & _ & Hpresent & _).
    apply (Hpresent "sha256=00" "yesterday");
      first [discriminate | reflexivity].
  - destruct (H (Some "sha256=00") (Some "1699990000") Sample.secret)
      as (_ & _ & _ & Hpresent & _).
    destruct (Hpresent "sha256=00" "1699990000" eq_refl eq_refl
                ltac:(discriminate) ltac:(discriminate) ltac:(discriminate))
      as [_ Hparsed].
    apply (Hparsed 1699990000);
      first [reflexivity | vm_compute; reflexivity].
  - destruct (H (Some "sha256=00") (Some "1700000000") Sample.secret)
      as (_ & _ & _ & Hpresent & _).
    destruct (Hpresent "sha256=00" "1700000000" eq_refl eq_refl
                ltac:(discriminate) ltac:(discriminate) ltac:(discriminate))
      as [_ Hparsed].
    destruct (Hparsed 1700000000 eq_refl eq_refl eq_refl eq_refl eq_refl)
      as (_ & _ & Hmismatch).
    apply (Hmismatch (Some Sample.ping)).
    + intros _. cbn. lia.
    + reflexivity.
    + intro E. vm_compute in E. discriminate E.
  - apply (H (Some "sha256=00") (Some "1700000000") Sample.secret).
    vm_compute. reflexivity.
Defined.

Lemma comparison_rejects_witness :
  checkSignature "517adbf6" "517adbf7"
  = Throw (WebhookSignatureError "Signature verification failed")
  /\ compareSignatures "517adbf6" "517a" = Return false
  /\ checkSignature "517adbf6" "517a"
     = Throw (WebhookSignatureError "Signature verification failed")
  /\ JS.timingSafeEqual (JS.Buffer_from "517adbf6") (JS.Buffer_from "517a")
     = Throw RangeError.
Proof.
  destruct (comparison_rejects "517adbf6" "517adbf7") as [Hsame _].
  destruct (comparison_rejects "517adbf6" "517a") as [_ Hdiffer].
  split.
  - apply Hsame; [reflexivity | discriminate].
  - destruct Hdiffer as (Hcompare & Hcheck & Hthrown); [discriminate |].
    split; [exact Hcompare | split; [exact Hcheck |]].
    apply Hthrown; reflexivity.
Defined.


Lemma validation_before_fetch_witness :
  evaluate (host := Sample.limited) Sample.client
    (@mkEvaluateOptions Sample.limited None None None None) []
  = (Throw (Error "Either 'messages' or 'text' must be provided"), [])
  /\ evaluate (host := Sample.limited) Sample.client
       (@mkEvaluateOptions Sample.limited (Some (JSON.VArray [])) (Some "hello")
          None None) []
     = (Throw (Error "Only one of 'messages' or 'text' can be provided, not both"), [])
  /\ screen (host := Sample.limited) Sample.client
       (@mkScreenOptions Sample.limited None None None) []
     = (Throw (Error "Either 'messages' or 'text' must be provided"), [])
  /\ screen (host := Sample.limited) Sample.client
       (@mkScreenOptions Sample.limited (Some (JSON.VArray [])) (Some "hello") None) []
     = (Throw (Error "Only one of 'messages' or 'text' can be provided, not both"), []).
Proof.
  destruct (validation_before_fetch (host := Sample.limited) Sample.client [])
    as [Hevaluate Hscreen].
  split; [| split; [| split]].
  - apply Hevaluate; reflexivity.
  - apply Hevaluate; discriminate.
  - apply Hscreen; reflexivity.
  - apply Hscreen; discriminate.
Defined.



(** The 429 of the server reaches the caller of [evaluate] as the
    [NopeRateLimitError], after one request. *)
Example evaluate_rate_limited :
  evaluate (host := Sample.limited) Sample.client
    (@mkEvaluateOptions Sample.limited
       (Some (JSON.VArray
                [JSON.VObject [("role", JSON.VString "user");
                               ("content", JSON.VString "test")]]))
       None None None) []
  = (Throw (NopeRateLimitError "Rate limit exceeded" (Some (Num (inject_Z 30000)))
              (Some (JSON.text "{'error':'Rate limit exceeded'}"))),
     [mkRequest "https://api.nope.net/v1/evaluate" "POST"
        [("Content-Type", "application/json"); ("User-Agent", "nope-node/0.1.0");
         ("Authorization", "Bearer test_key")]
        (Some (JSON.text
                 "{'config':{},'messages':[{'role':'user','content':'test'}]}"))]).
Proof. vm_compute. reflexivity. Qed.

(** Not every alteration is rejected: the part of a signed payload up
    to a dot, moved to the end of the timestamp, leaves the signed
    message as it was, and [parseInt] reads the timestamp as before. *)
Example moved_dot_accepted :
  sign (host := Sample.node) 1700000000 (PString "0.5") Sample.secret
    (Some 1700000000)
  = Return
      (mkSigned
         "sha256=5cb41d97adf39a34b1dd80f199e46ba169fa7bbabfc4222ef11a10c3cd4b8cbb"
         "1700000000")
  /\ verify (host := Sample.node) 1700000000 (PString "5")
       (Some "sha256=5cb41d97adf39a34b1dd80f199e46ba169fa7bbabfc4222ef11a10c3cd4b8cbb")
       (Some "1700000000.0") Sample.secret noOptions
     = Return (JSON.VNumber 5 0).
Proof. split; vm_compute; reflexivity. Qed.

(** [JSON.parse] and [JSON.stringify] of the host on a webhook body. *)
Example JSON_round_trip :
  JSON.parse (JSON.text "{ 'event' : 'test.ping', 'domains' : [ ], 'n' : -2.50 }")
  = Some (JSON.VObject [("event", JSON.VString "test.ping");
                        ("domains", JSON.VArray []);
                        ("n", JSON.VNumber (-25) (-1))])
  /\ JSON.stringify
       (JSON.VObject [("event", JSON.VString "test.ping");
                      ("domains", JSON.VArray []);
                      ("n", JSON.VNumber (-25) (-1))])
     = Text (JSON.text "{'event':'test.ping','domains':[],'n':-2.5}")
  /\ JSON.parse "not json" = None
  /\ JSON.parse (JSON.text "{'event':'test.ping',}") = None.
Proof. repeat split; vm_compute; reflexivity. Qed.

(** SHA-256 starts from the constants of FIPS 180-4. *)
Example sha256_constants :
  nth 0 Crypto.K 0 = 0x428a2f98 /\ nth 63 Crypto.K 0 = 0xc67178f2
  /\ nth 0 Crypto.H0 0 = 0x6a09e667 /\ nth 7 Crypto.H0 0 = 0x5be0cd19
  /\ List.length Crypto.K = 64%nat /\ List.length Crypto.H0 = 8%nat.
Proof. repeat split; reflexivity. Qed.

(** HMAC-SHA256 on the second test case of RFC 4231. *)
Example hmac_rfc4231 :
  Node.hmac "Jefe" "what do ya want for nothing?"
  = "5bdcc146bf60754e6a042426089575c75a003f089d2739839dec58b964ec3843".
Proof. vm_compute. reflexivity. Qed.

(** * Further properties *)

(** ** [parseInt] stops at the first character that is no digit *)

Module ParseFacts.

Import JS.

Lemma digits_stop (s : string) (acc : option Z) :
  startsWithDigit s = false -> digits s acc = acc.
Proof.
  destruct s as [|c s]; [reflexivity |].
  cbn [startsWithDigit digits]. unfold isDigit.
  now destruct (digit c).
Qed.

Lemma digits_app (s rest : string) (acc : option Z) :
  allDigits s = true -> startsWithDigit rest = false ->
  digits (s ++ rest) acc = digits s acc.
Proof.
  revert acc; induction s as [|c s IH]; intros acc Hs Hrest.
  - cbn [append digits]. now apply digits_stop.
  - cbn [allDigits] in Hs. apply andb_true_iff in Hs as [Hc Hs].
    cbn [append digits]. unfold isDigit in Hc.
    destruct (digit c); [now apply IH | discriminate].
Qed.

Lemma uint_app_startsWithDigit (d : Decimal.uint) (rest : string) :
  d <> Decimal.Nil -> startsWithDigit (NilEmpty.string_of_uint d ++ rest) = true.
Proof. destruct d; intro H; [congruence | reflexivity ..]. Qed.

(** What follows the digits of a number is ignored. *)
Lemma parseInt_toString_then (n : Z) (rest : string) :
  startsWithDigit rest = false -> parseInt (toString n ++ rest) = Some n.
Proof.
  intro Hrest. unfold toString.
  destruct n as [|p|p]; cbn [Z.to_int NilEmpty.string_of_int].
  - assert (Hnil : Decimal.zero <> Decimal.Nil) by discriminate.
    rewrite JSFacts.parseInt_digits by now apply uint_app_startsWithDigit.
    rewrite digits_app by (try apply NumberFacts.uint_allDigits; assumption).
    now rewrite JSFacts.digits_none by exact Hnil.
  - pose proof (DecimalPos.Unsigned.to_uint_nonnil p) as Hnil.
    rewrite JSFacts.parseInt_digits by now apply uint_app_startsWithDigit.
    rewrite digits_app by (try apply NumberFacts.uint_allDigits; assumption).
    rewrite JSFacts.digits_none by exact Hnil.
    now rewrite DecimalPos.Unsigned.of_to.
  - pose proof (DecimalPos.Unsigned.to_uint_nonnil p) as Hnil.
    cbn [append]. unfold parseInt. cbn [trimStart]. cbn.
    rewrite digits_app by (try apply NumberFacts.uint_allDigits; assumption).
    rewrite JSFacts.digits_none by exact Hnil.
    rewrite DecimalPos.Unsigned.of_to. reflexivity.
Qed.

End ParseFacts.

(** ** webhook.ts *)

Section WebhookMore.

Context {host : Host}.


(** [verify] looks at the signature header through what is left of it
    once the prefix is taken off. *)
Lemma verify_same_received (now : Z) (payload : Payload) (sig sig' : string)
    (ts : option string) (secret : string) (options : WebhookVerifyOptions) :
  sig <> "" -> sig' <> "" ->
  JS.replacePrefix "sha256=" sig = JS.replacePrefix "sha256=" sig' ->
  verify now payload (Some sig) ts secret options
  = verify now payload (Some sig') ts secret options.
Proof.
  intros Hsig Hsig' Heq.
  destruct ts as [[|d ts] |];
    [destruct sig, sig'; congruence || reflexivity | |
     destruct sig, sig'; congruence || reflexivity].
  destruct secret as [|k secret];
    [destruct sig, sig'; congruence || reflexivity |].
  rewrite !verify_present by (assumption || discriminate).
  unfold verifySignature. now rewrite Heq.
Qed.

(** X1.  The prefix [sha256=] of the signature header is optional: a
    header value that is not empty and does not start with the prefix
    is verified like the same value with the prefix in front. *)
Theorem signature_prefix_optional (now : Z) (payload : Payload) (sig : string)
    (ts : option string) (secret : string) (options : WebhookVerifyOptions) :
  sig <> "" -> JS.stripPrefix "sha256=" sig = None ->
  verify now payload (Some ("sha256=" ++ sig)) ts secret options
  = verify now payload (Some sig) ts secret options.
Proof.
  intros Hsig Hstrip. apply verify_same_received; [discriminate | exact Hsig |].
  rewrite replacePrefix_prefixed. unfold JS.replacePrefix. now rewrite Hstrip.
Qed.


(** X3.  A [maxAgeSeconds] that is zero or negative switches the
    freshness check off: no outcome is a rejection for staleness and
    the outcome is the same at every clock. *)
Theorem freshness_off_when_not_positive (now now' : Z) (payload : Payload)
    (sig ts : option string) (secret : string) (options : WebhookVerifyOptions) :
  maxAgeOf options <= 0 ->
  ~ stale (verify now payload sig ts secret options)
  /\ verify now payload sig ts secret options
     = verify now' payload sig ts secret options.
Proof.
  intro Hoff.
  assert (Hclock : forall clock,
             verify clock payload sig ts secret options
             = verify 0 payload sig ts secret options).
  { intro clock.
    destruct sig as [[|c sig] |]; try reflexivity.
    destruct ts as [[|d ts] |]; try reflexivity.
    destruct secret as [|k secret]; try reflexivity.
    rewrite !verify_present by discriminate.
    destruct (JS.parseInt (String d ts)); [| reflexivity].
    cbn [bind]. now rewrite !checkFreshness_disabled by exact Hoff. }
  split; [| now rewrite (Hclock now), (Hclock now')].
  intros (age & maxAge & H).
  destruct (verify_outcomes now payload sig ts secret options)
    as [Hv | [Hv | [Hv | [Hv | (sig' & ts' & t & _ & _ & _ & _ & _ & _ & Hv)]]]];
    rewrite Hv in H;
    try (destruct H as [H | H];
         unfold tooOld, tooFarInFuture in H; cbn [append] in H; discriminate H).
  rewrite checkFreshness_disabled in H by exact Hoff. cbn [bind] in H.
  apply (verifySignature_not_stale payload sig' ts' secret).
  now exists age, maxAge.
Qed.


(** X5.  An object payload and the text it serializes to are
    interchangeable: [sign] gives the same result for both, and the
    signature of the text verifies the object, which [verify] returns
    as it is. *)
Theorem object_and_serialized_text_agree (now now' : Z) (o : JsValue) (s : string)
    (secret : string) (stamp : option Z) (options : WebhookVerifyOptions)
    (signed : Signed) :
  JSON_stringify o = Text s ->
  secret <> "" ->
  (let ts := match stamp with Some t => t | None => now' end in
   0 < maxAgeOf options -> - maxAgeOf options <= now - ts <= maxAgeOf options) ->
  sign now' (PString s) secret stamp = Return signed ->
  sign now' (PObject o) secret stamp = Return signed
  /\ verify now (PObject o) (Some (signature signed)) (Some (timestamp signed))
       secret options
     = Return o.
Proof.
  intros Hs Hsecret Hwindow Hsign.
  assert (Hsame : sign now' (PObject o) secret stamp = Return signed).
  { rewrite <- Hsign. unfold sign, stringifyPayload. now rewrite Hs. }
  split; [exact Hsame |].
  destruct (sign_returns _ _ _ _ _ Hsame) as (ps & Hstr & Hsig & Hts).
  cbv zeta in Hwindow.
  set (ts := match stamp with Some t => t | None => now' end) in *.
  change (Return o) with (parsePayload (PObject o)).
  apply (verify_checks_passed now (PObject o) _ _ secret options ts ps).
  - rewrite Hsig. discriminate.
  - rewrite Hts. apply JSFacts.toString_not_empty.
  - exact Hsecret.
  - rewrite Hts. apply JSFacts.parseInt_toString.
  - now apply checkFreshness_Return_iff.
  - exact Hstr.
  - rewrite Hsig, Hts, replacePrefix_prefixed. apply checkSignature_same.
Qed.

Lemma append_assoc (a b c : string) : (a ++ b) ++ c = a ++ (b ++ c).
Proof. induction a as [|x a IH]; cbn [append]; [reflexivity | now rewrite IH]. Qed.

(** X6.  The signed message does not say where the timestamp ends: the
    payload [a.b] signed at [t] and the payload [b] received with the
    timestamp [t.a] have the same message, and [parseInt] reads [t.a]
    as [t].  So the signature of [a.b] makes [verify] accept [b]. *)
Theorem signature_of_text_verifies_its_tail (now now' : Z) (a b secret : string)
    (t : Z) (options : WebhookVerifyOptions) (signed : Signed) :
  secret <> "" ->
  (0 < maxAgeOf options -> - maxAgeOf options <= now - t <= maxAgeOf options) ->
  sign now' (PString (a ++ "." ++ b)) secret (Some t) = Return signed ->
  verify now (PString b) (Some (signature signed))
    (Some (timestamp signed ++ "." ++ a)) secret options
  = match JSON_parse b with
    | Some parsed => Return parsed
    | None => Throw SyntaxError
    end.
Proof.
  intros Hsecret Hwindow Hsign.
  destruct (sign_returns _ _ _ _ _ Hsign) as (ps & Hstr & Hsig & Hts).
  cbn in Hstr. injection Hstr as <-. cbn [interpolate] in Hsig.
  change (match JSON_parse b with
          | Some parsed => Return parsed
          | None => Throw SyntaxError
          end) with (parsePayload (PString b)).
  apply (verify_checks_passed now (PString b) _ _ secret options t (Some b)).
  - rewrite Hsig. discriminate.
  - rewrite Hts. intro H.
    apply (JSFacts.toString_not_empty t).
    destruct (JS.toString t); [reflexivity | discriminate H].
  - exact Hsecret.
  - rewrite Hts. now apply ParseFacts.parseInt_toString_then.
  - now apply checkFreshness_Return_iff.
  - reflexivity.
  - rewrite Hsig, Hts, replacePrefix_prefixed. cbn [interpolate].
    rewrite append_assoc. apply checkSignature_same.
Qed.


(** X8.  [sign] throws exactly for an object payload on which
    [JSON.stringify] throws, and it throws what [JSON.stringify]
    throws; otherwise it returns a signature made of the prefix
    [sha256=] and the HMAC of its timestamp, a dot and the payload
    string.  For a safe integer the timestamp is read back by
    [parseInt] as the number signed, which is the clock when none was
    given. *)
Theorem sign_outcome (now : Z) (payload : Payload) (secret : string)
    (stamp : option Z) :
  let ts := match stamp with Some t => t | None => now end in
  (forall e, sign now payload secret stamp = Throw e <->
     exists o, payload = PObject o /\ refuses o e)
  /\ (forall signed, sign now payload secret stamp = Return signed ->
        (safeInteger ts -> JS.parseInt (timestamp signed) = Some ts)
        /\ exists payloadString,
             stringifyPayload payload = Return payloadString
             /\ JS.stripPrefix "sha256=" (signature signed)
                = Some (hmacSha256Hex secret
                          (timestamp signed ++ "." ++ interpolate payloadString)))
  /\ ((exists o e, payload = PObject o /\ refuses o e)
      \/ exists signed, sign now payload secret stamp = Return signed).
Proof.
  intro ts. split; [| split].
  - intro e. unfold sign, stringifyPayload, refuses. split.
    + intro H. destruct payload as [s | o]; [discriminate H |]. exists o.
      split; [reflexivity |].
      destruct (JSON_stringify o) as [s | | message | thrown];
        try discriminate H; injection H as <-; [left | right]; eauto.
    + intros (o & -> & [[-> [message Ho]] | (thrown & -> & Ho)]);
        now rewrite Ho.
  - intros signed H.
    destruct (sign_returns _ _ _ _ _ H) as (ps & Hps & Hsig & Hts).
    fold ts in Hsig, Hts. split.
    + intros _. rewrite Hts. apply JSFacts.parseInt_toString.
    + exists ps. split; [exact Hps |].
      rewrite Hsig, Hts. apply stripPrefix_prefixed.
  - unfold sign, stringifyPayload, refuses.
    destruct payload as [s | o]; [cbn; eauto |].
    destruct (JSON_stringify o) as [s | | message | thrown] eqn:Ho; cbn [bind];
      [eauto | eauto | left | left].
    + exists o, TypeError. split; [reflexivity |]. left. eauto.
    + exists o, (Uncaught thrown). split; [reflexivity |]. right. eauto.
Qed.

End WebhookMore.

(** ** client.ts *)

Module UrlFacts.

Import JS.

Lemma dropLast_appended (c : ascii) (s : string) :
  dropLast c (s ++ String c "") = s.
Proof.
  induction s as [|d s IH]; cbn [append dropLast].
  - now rewrite Ascii.eqb_refl.
  - rewrite IH. destruct s; reflexivity.
Qed.

Lemma dropLast_kept (c : ascii) (s : string) :
  endsWith c s = false -> dropLast c s = s.
Proof.
  induction s as [|d s IH]; [reflexivity |].
  cbn [endsWith dropLast]. destruct s as [|e s].
  - intro H. now rewrite H.
  - intro H. now rewrite (IH H).
Qed.

End UrlFacts.

Section ClientMore.

Context {host : Host}.

(** X9.  [new NopeClient] removes one slash from the end of the base
    URL and no more, keeps a base URL without one, and takes the
    default base URL and the default timeout of 30000 ms only for an
    option that is left out (a timeout of 0 is kept); with and without
    the slash the client is the same. *)
Theorem constructor_normalizes_options (key : option string) (limit : option Z)
    (u : string) :
  baseUrl (newNopeClient (mkClientOptions key (Some (u ++ "/")) limit)) = u
  /\ (endsWith "/" u = false ->
      newNopeClient (mkClientOptions key (Some (u ++ "/")) limit)
      = newNopeClient (mkClientOptions key (Some u) limit))
  /\ (endsWith "/" u = false ->
      baseUrl (newNopeClient (mkClientOptions key (Some u) limit)) = u)
  /\ baseUrl (newNopeClient (mkClientOptions key None limit)) = "https://api.nope.net"
  /\ timeout (newNopeClient (mkClientOptions key (Some u) None)) = 30000
  /\ (forall t, timeout (newNopeClient (mkClientOptions key (Some u) (Some t))) = t)
  /\ apiKey (newNopeClient (mkClientOptions key (Some u) limit)) = key.
Proof.
  unfold newNopeClient. cbn [optApiKey optBaseUrl optTimeout baseUrl timeout apiKey].
  rewrite UrlFacts.dropLast_appended.
  split; [reflexivity |].
  split; [intro H; now rewrite (UrlFacts.dropLast_kept _ _ H) |].
  split; [apply UrlFacts.dropLast_kept |]. repeat split.
Qed.

(** What [request] does, by what [fetch] does with the request. *)
Lemma request_sent (client : NopeClient) (method path : string)
    (value : JsValue) (s : string) (log : list Request) :
  JSON_stringify value = Text s ->
  request client method path (Some value) log
  = let req := requestOf client method path (Some s) in
    let log := List.app log [req] in
    match fetch req with
    | Resolved response => (handleResponse response, log)
    | Unreadable reason => (Throw (Uncaught reason), log)
    | Rejected reason => (Throw (connectionError client reason), log)
    end.
Proof. intro Hs. unfold request. now rewrite Hs. Qed.


(** A response whose body cannot be read: what its [text()] rejects
    with reaches the caller as it is. *)
Lemma request_unreadable (client : NopeClient) (method path : string)
    (value : JsValue) (s : string) (log : list Request) (reason : rejection) :
  JSON_stringify value = Text s ->
  fetch (requestOf client method path (Some s)) = Unreadable reason ->
  request client method path (Some value) log
  = (Throw (Uncaught reason),
     List.app log [requestOf client method path (Some s)]).
Proof.
  intros Hs Hf. rewrite (request_sent client method path value s log Hs).
  cbv zeta. now rewrite Hf.
Qed.


(** X11.  A payload that [JSON.stringify] refuses never reaches
    [fetch]: [evaluate] and [screen] throw a [NopeConnectionError] with
    the message of the serializer and the log of requests is as
    before. *)
Theorem unserializable_body_is_not_sent (client : NopeClient)
    (log : list Request) (message : string) :
  let failure :=
    NopeConnectionError
      ("Failed to connect to " ++ baseUrl client ++ ": " ++ message)
      (Some (ErrorObject "TypeError" message)) in
  (forall options : EvaluateOptions,
     (evMessages options = None <-> evText options <> None) ->
     JSON_stringify (evaluatePayload options) = Unserializable message ->
     evaluate client options log = (Throw failure, log))
  /\ (forall options : ScreenOptions,
        (scMessages options = None <-> scText options <> None) ->
        JSON_stringify (screenPayload options) = Unserializable message ->
        screen client options log = (Throw failure, log)).
Proof.
  intro failure. split; intros options Hone Hs.
  - rewrite (evaluate_is_request client options log Hone).
    unfold request. now rewrite Hs.
  - rewrite (screen_is_request client options log Hone).
    unfold request. now rewrite Hs.
Qed.

Lemma request_log (client : NopeClient) (method path : string)
    (body : option JsValue) (log : list Request) :
  snd (request client method path body log) = log
  \/ exists serialized,
       snd (request client method path body log)
       = List.app log [requestOf client method path serialized]
       /\ match body with
          | Some value =>
              JSON_stringify value
              = match serialized with Some s => Text s | None => Undefined end
          | None => serialized = None
          end.
Proof.
  unfold request.
  destruct body as [value |].
  - destruct (JSON_stringify value) as [s | | message | thrown] eqn:Hs.
    + right. exists (Some s). split; [now destruct (fetch _) | reflexivity].
    + right. exists None. split; [now destruct (fetch _) | reflexivity].
    + left. reflexivity.
    + left. reflexivity.
  - right. exists None. split; [now destruct (fetch _) | reflexivity].
Qed.

(** X12.  A call of [evaluate] or [screen] hands at most one request
    to [fetch] and leaves the earlier entries of the log alone; the
    request is a POST to the base URL followed by [/v1/evaluate] or
    [/v1/screen], with the JSON content type, with the header
    [Authorization: Bearer key] exactly when the client has an API key
    that is not empty, and with the serialized payload as its body. *)
Theorem one_request_per_call (client : NopeClient) (log : list Request) :
  let wellFormed (path : string) (payload : JsValue) (log' : list Request) :=
    log' = log
    \/ exists req,
         log' = List.app log [req]
         /\ url req = baseUrl client ++ path
         /\ method req = "POST"
         /\ Fetch.get (requestHeaders req) "Content-Type" = Some "application/json"
         /\ Fetch.get (requestHeaders req) "Authorization"
            = match apiKey client with
              | Some key => if JS.falsy key then None else Some ("Bearer " ++ key)
              | None => None
              end
         /\ JSON_stringify payload
            = match body req with Some s => Text s | None => Undefined end in
  (forall options : EvaluateOptions,
     wellFormed "/v1/evaluate" (evaluatePayload options)
       (snd (evaluate client options log)))
  /\ (forall options : ScreenOptions,
        wellFormed "/v1/screen" (screenPayload options)
          (snd (screen client options log))).
Proof.
  intro wellFormed.
  assert (Hrequest : forall path payload,
             wellFormed path payload
               (snd (request client "POST" path (Some payload) log))).
  { intros path payload. unfold wellFormed.
    destruct (request_log client "POST" path (Some payload) log)
      as [H | (serialized & H & Hs)]; [now left | right].
    exists (requestOf client "POST" path serialized).
    split; [exact H |]. unfold requestOf.
    cbn [url method requestHeaders body].
    split; [reflexivity |]. split; [reflexivity |].
    destruct (apiKey client) as [[|c key] |];
      (split; [reflexivity | split; [reflexivity | exact Hs]]). }
  split; intro options.
  - unfold evaluate.
    destruct (isUndefined (evMessages options) && isUndefined (evText options));
      [now left |].
    destruct (negb (isUndefined (evMessages options))
              && negb (isUndefined (evText options))); [now left |].
    apply Hrequest.
  - unfold screen.
    destruct (isUndefined (scMessages options) && isUndefined (scText options));
      [now left |].
    destruct (negb (isUndefined (scMessages options))
              && negb (isUndefined (scText options))); [now left |].
    apply Hrequest.
Qed.

(** The error of a response with a status outside 200..299: its class
    goes by the status. *)
Lemma handleResponse_not_ok (response : Response) :
  Fetch.ok response = false ->
  handleResponse response
  = throwNew (errorMessageOf (text response))
      (fun message =>
         if status response =? 401 then
           NopeAuthError message (Some (text response))
         else if status response =? 400 then
           NopeValidationError message (Some (text response))
         else if status response =? 429 then
           NopeRateLimitError message
             match Fetch.get (headers response) "Retry-After" with
             | Some value =>
                 if JS.falsy value then None
                 else Some (JS.times1000 (JS.parseFloat value))
             | None => None
             end (Some (text response))
         else if status response >=? 500 then
           NopeServerError message (status response) (Some (text response))
         else
           NopeError message (Some (status response)) (Some (text response))).
Proof.
  intro Hok. unfold handleResponse. rewrite Hok.
  repeat match goal with |- context [if ?b then _ else _] => destruct b end;
    reflexivity.
Qed.

Lemma not_ok (response : Response) :
  ~ 200 <= status response <= 299 -> Fetch.ok response = false.
Proof. intro H. unfold Fetch.ok. apply andb_false_iff. rewrite !Z.leb_gt. lia. Qed.

(** X13.  [handleResponse] returns exactly for a response with a
    status in 200..299 whose body is JSON, and it returns what
    [JSON.parse] makes of the body; a body that is not JSON under such
    a status is the [NopeError] "Invalid JSON response". *)
Theorem handleResponse_returns_iff (response : Response) :
  ((exists v, handleResponse response = Return v)
   <-> 200 <= status response <= 299 /\ JSON_parse (text response) <> None)
  /\ (forall v, handleResponse response = Return v ->
        JSON_parse (text response) = Some v)
  /\ (200 <= status response <= 299 -> JSON_parse (text response) = None ->
      handleResponse response
      = Throw (NopeError "Invalid JSON response" (Some (status response))
                 (Some (text response)))).
Proof.
  assert (Hok : Fetch.ok response = true <-> 200 <= status response <= 299).
  { unfold Fetch.ok. rewrite andb_true_iff, !Z.leb_le. tauto. }
  destruct (Fetch.ok response) eqn:E.
  - assert (Hrange : 200 <= status response <= 299) by now apply Hok.
    unfold handleResponse. rewrite E.
    destruct (JSON_parse (text response)) as [v |].
    + split; [split; [intros _; split; [exact Hrange | discriminate] | eauto] |].
      split; [intros w H; congruence | congruence].
    + split; [split; [intros [v H]; discriminate H | intros [_ H]; congruence] |].
      split; [intros w H; discriminate H | reflexivity].
  - assert (Hrange : ~ 200 <= status response <= 299)
      by (intro H; apply Hok in H; discriminate H).
    assert (Hthrows : forall v, handleResponse response <> Return v).
    { intro v. rewrite (handleResponse_not_ok response E). unfold throwNew.
      destruct (messageText _); discriminate. }
    split; [split; [intros [v H]; now apply Hthrows in H | tauto] |].
    split; [intros v H; now apply Hthrows in H | tauto].
Qed.

(** X14.  Every error that [handleResponse] throws is a [NopeError]
    whose [statusCode] is the status of the response and whose
    [responseBody] is the text of the response, or it is the
    [TypeError] that stops the construction of that error: this one is
    thrown exactly for a status outside 200..299 and a JSON body whose
    [error] value cannot be converted to a string. *)
Theorem thrown_error_describes_response (response : Response) :
  let unprintable :=
    exists errorData value,
      JSON_parse (text response) = Some errorData
      /\ errorProperty errorData = Some value
      /\ ToString value = None in
  (forall e,
     handleResponse response = Throw e ->
     (Errors.isNopeError e = true
      /\ Errors.statusCode e = Some (status response)
      /\ Errors.responseBody e = Some (text response))
     \/ e = TypeError)
  /\ (handleResponse response = Throw TypeError
      <-> ~ 200 <= status response <= 299 /\ unprintable).
Proof.
  intro unprintable.
  assert (Hmessage : messageText (errorMessageOf (text response)) = None
                     <-> unprintable).
  { unfold unprintable, messageText, errorMessageOf.
    destruct (JSON_parse (text response)) as [errorData |].
    - destruct (errorProperty errorData) as [value |] eqn:Ev.
      + split; [intro H; now exists errorData, value |].
        intros (d & v & Hd & Hv & H). congruence.
      + split; [discriminate |]. intros (d & v & Hd & Hv & H). congruence.
    - split; [discriminate |]. intros (d & v & Hd & Hv & H). congruence. }
  destruct (Fetch.ok response) eqn:E.
  - assert (Hrange : 200 <= status response <= 299).
    { unfold Fetch.ok in E. apply andb_true_iff in E. rewrite !Z.leb_le in E. lia. }
    unfold handleResponse. rewrite E.
    destruct (JSON_parse (text response)); split.
    + intros e H. discriminate H.
    + split; [discriminate | tauto].
    + intros e H. injection H as <-. left. repeat split.
    + split; [discriminate | tauto].
  - assert (Hrange : ~ 200 <= status response <= 299).
    { unfold Fetch.ok in E. apply andb_false_iff in E. rewrite !Z.leb_gt in E. lia. }
    rewrite (handleResponse_not_ok response E). unfold throwNew.
    destruct (messageText (errorMessageOf (text response))) as [message |]; split.
    + intros e H. injection H as <-. left.
      destruct (Z.eqb_spec (status response) 401) as [-> | _]; [repeat split |].
      destruct (Z.eqb_spec (status response) 400) as [-> | _]; [repeat split |].
      destruct (Z.eqb_spec (status response) 429) as [-> | _]; [repeat split |].
      destruct (status response >=? 500); repeat split.
    + split.
      * intro H. exfalso. injection H as H.
        repeat match type of H with
               | (if ?b then _ else _) = _ => destruct b
               end; discriminate H.
      * intros [_ H]. apply Hmessage in H. discriminate H.
    + intros e H. injection H as <-. now right.
    + split; [intros _; split; [exact Hrange | now apply Hmessage] | reflexivity].
Qed.

(** X15.  The class of the error for a status outside 200..299: 401 is
    a [NopeAuthError], 400 a [NopeValidationError], 429 a
    [NopeRateLimitError], 500 and above a [NopeServerError], and every
    other status a plain [NopeError].  Its message is the text of the
    body, unless the body is JSON with an [error] property: then it is
    that value as a string, and when the value has none the
    [TypeError] of the conversion is thrown in place of the error. *)
Theorem error_class_by_status (response : Response) :
  ~ 200 <= status response <= 299 ->
  let converted :=
    match JSON_parse (text response) with
    | Some errorData =>
        match errorProperty errorData with
        | Some value => ToString value
        | None => Some (text response)
        end
    | None => Some (text response)
    end in
  match converted with
  | Some message =>
      exists e,
        handleResponse response = Throw e
        /\ Errors.message e = Some message
        /\ Errors.name e
           = Some (if status response =? 401 then "NopeAuthError"
                   else if status response =? 400 then "NopeValidationError"
                   else if status response =? 429 then "NopeRateLimitError"
                   else if 500 <=? status response then "NopeServerError"
                   else "NopeError")
  | None => handleResponse response = Throw TypeError
  end.
Proof.
  intros Hrange converted.
  rewrite (handleResponse_not_ok response (not_ok response Hrange)).
  unfold throwNew.
  assert (E : messageText (errorMessageOf (text response)) = converted).
  { unfold converted, messageText, errorMessageOf.
    destruct (JSON_parse (text response)) as [errorData |]; [| reflexivity].
    now destruct (errorProperty errorData). }
  rewrite E. destruct converted as [message |]; [| reflexivity].
  eexists. split; [reflexivity |]. rewrite Z.geb_leb.
  destruct (status response =? 401); [now split |].
  destruct (status response =? 400); [now split |].
  destruct (status response =? 429); [now split |].
  destruct (500 <=? status response); now split.
Qed.

(** X16.  With exactly one of [messages] and [text] and a payload that
    is serialized, [evaluate] and [screen] end as [handleResponse] ends
    on the response of the server, after the one request: the parsed
    body of a 2xx response is returned and the errors of the other
    responses reach the caller as they are. *)
Theorem outcome_is_that_of_the_response (client : NopeClient)
    (log : list Request) (response : Response) (s : string) :
  (forall options : EvaluateOptions,
     (evMessages options = None <-> evText options <> None) ->
     JSON_stringify (evaluatePayload options) = Text s ->
     fetch (requestOf client "POST" "/v1/evaluate" (Some s)) = Resolved response ->
     evaluate client options log
     = (handleResponse response,
        List.app log [requestOf client "POST" "/v1/evaluate" (Some s)]))
  /\ (forall options : ScreenOptions,
        (scMessages options = None <-> scText options <> None) ->
        JSON_stringify (screenPayload options) = Text s ->
        fetch (requestOf client "POST" "/v1/screen" (Some s)) = Resolved response ->
        screen client options log
        = (handleResponse response,
           List.app log [requestOf client "POST" "/v1/screen" (Some s)])).
Proof.
  split; intros options Hone Hs Hf.
  - rewrite (evaluate_is_request client options log Hone).
    now apply request_resolved.
  - rewrite (screen_is_request client options log Hone).
    now apply request_resolved.
Qed.

Section Printing.

Variable Number_toString : number -> string.

(** X17.  How the error of a failed response prints, when its message
    has a text: the status in brackets, a space and the message, or the
    message alone for the status 0.  For a 429 whose header
    [Retry-After] is an integer of seconds in decimal digits, the hint
    [(retry after Nms)] follows with the number of milliseconds, unless
    that number is zero; no hint follows when the header is absent or
    empty.  The numbers are safe integers, which print as their
    digits. *)
Theorem error_of_response_prints (response : Response) (message : string) :
  (forall n, safeInteger n -> Number_toString (Num (inject_Z n)) = JS.toString n) ->
  ~ 200 <= status response <= 299 ->
  safeInteger (status response) ->
  messageText (errorMessageOf (text response)) = Some message ->
  exists e,
    handleResponse response = Throw e
    /\ let printed :=
         if status response =? 0 then message
         else "[" ++ JS.toString (status response) ++ "] " ++ message in
       (status response <> 429 ->
        Errors.toString Number_toString e = Some printed)
       /\ (status response = 429 ->
           Fetch.get (headers response) "Retry-After" = None
           \/ Fetch.get (headers response) "Retry-After" = Some "" ->
           Errors.toString Number_toString e = Some printed)
       /\ (status response = 429 ->
           forall seconds,
             safeInteger (seconds * 1000) ->
             Fetch.get (headers response) "Retry-After"
             = Some (JS.toString seconds) ->
             Errors.toString Number_toString e
             = Some (if seconds =? 0 then printed
                     else printed ++ " (retry after "
                            ++ JS.toString (seconds * 1000) ++ "ms)")).
Proof.
  intros Hprint Hrange _ Hmessage.
  rewrite (handleResponse_not_ok response (not_ok response Hrange)).
  unfold throwNew. rewrite Hmessage. eexists. split; [reflexivity |].
  cbv zeta.
  destruct (Z.eqb_spec (status response) 401) as [E1 | N1];
    [rewrite E1; repeat split; intros; first [reflexivity | discriminate | lia] |].
  destruct (Z.eqb_spec (status response) 400) as [E2 | N2];
    [rewrite E2; repeat split; intros; first [reflexivity | discriminate | lia] |].
  destruct (Z.eqb_spec (status response) 429) as [E3 | N3].
  - rewrite E3. change (429 =? 0) with false. cbv iota.
    split; [intro H; now contradict H |]. split.
    + intros _ [-> | ->]; reflexivity.
    + intros _ seconds Hsafe ->.
      rewrite (JSFacts.falsy_false _ (JSFacts.toString_not_empty seconds)).
      rewrite NumberFacts.parseFloat_toString, NumberFacts.times1000_integer.
      unfold Errors.toString, Errors.truthy, Errors.base.
      cbn [Errors.statusCode Qnum inject_Z]. change (429 =? 0) with false.
      cbv iota. rewrite (Hprint _ Hsafe).
      destruct (Z.eqb_spec (seconds * 1000) 0), (Z.eqb_spec seconds 0);
        first [reflexivity | lia].
  - destruct (status response >=? 500);
      (split; [intros _; reflexivity | split; intros H; now contradict H]).
Qed.

End Printing.

End ClientMore.

(** ** types.ts: the utility functions *)

Module TypesFacts.

Import Types.

Lemma Qle_bool_inject_Z (m x : Z) : Qle_bool (inject_Z m) (inject_Z x) = (m <=? x).
Proof. unfold Qle_bool. cbn. now rewrite !Z.mul_1_r. Qed.

(** [Math.max] of the scores of a list of risks that is not empty: the
    score of one of them, and none has a higher one. *)
Lemma Math_max_attained (score : Risk -> Z) (risks : list Risk) :
  risks <> [] ->
  exists r,
    In r risks
    /\ Math_max (map (fun r => Some (score r)) risks) = Num (inject_Z (score r))
    /\ forall r', In r' risks -> score r' <= score r.
Proof.
  induction risks as [|r0 risks IH]; [congruence |]. intros _.
  destruct risks as [|r1 risks].
  - exists r0. cbn. repeat split; [now left |].
    intros r' [<- | []]. lia.
  - destruct IH as (r & Hin & Hmax & Hle); [discriminate |].
    cbn [map Math_max] in *. rewrite Hmax. rewrite Qle_bool_inject_Z.
    destruct (Z.leb_spec (score r) (score r0)).
    + exists r0. split; [now left |]. split; [reflexivity |].
      intros r' [<- | H']; [lia |]. specialize (Hle r' H'). lia.
    + exists r. split; [now right |]. split; [reflexivity |].
      intros r' [<- | H']; [lia |]. now apply Hle.
Qed.

Lemma severity_of_score (s : Severity) :
  find (fun entry => strictEquals (snd entry) (Num (inject_Z (severityScore s))))
    SEVERITY_SCORES
  = Some (s, severityScore s).
Proof. destruct s; reflexivity. Qed.

Lemma imminence_of_score (i : Imminence) :
  find (fun entry => strictEquals (snd entry) (Num (inject_Z (imminenceScore i))))
    IMMINENCE_SCORES
  = Some (i, imminenceScore i).
Proof. destruct i; reflexivity. Qed.

Lemma severity_scores (risks : list Risk) :
  map (fun r => get Severity_eqb SEVERITY_SCORES (severity r)) risks
  = map (fun r => Some (severityScore (severity r))) risks.
Proof. apply map_ext. intro r. now destruct (severity r). Qed.

Lemma imminence_scores (risks : list Risk) :
  map (fun r => get Imminence_eqb IMMINENCE_SCORES (imminence r)) risks
  = map (fun r => Some (imminenceScore (imminence r))) risks.
Proof. apply map_ext. intro r. now destruct (imminence r). Qed.

Lemma severityScore_inj (a b : Severity) : severityScore a = severityScore b -> a = b.
Proof. destruct a, b; cbn; intro H; congruence. Qed.

Lemma imminenceScore_inj (a b : Imminence) :
  imminenceScore a = imminenceScore b -> a = b.
Proof. destruct a, b; cbn; intro H; congruence. Qed.

Lemma severityScore_nonneg (s : Severity) : 0 <= severityScore s.
Proof. destruct s; cbn; lia. Qed.

Lemma imminenceScore_nonneg (i : Imminence) : 0 <= imminenceScore i.
Proof. destruct i; cbn; lia. Qed.

(** The severity of the speaker, in full. *)
Lemma speaker_severity_cases (risks : list Risk) :
  (filter isSpeakerRisk risks = [] /\ calculateSpeakerSeverity risks = none)
  \/ exists r,
       In r risks /\ isSpeakerRisk r = true
       /\ calculateSpeakerSeverity risks = severity r
       /\ forall r', In r' risks -> isSpeakerRisk r' = true ->
            severityScore (severity r') <= severityScore (severity r).
Proof.
  unfold calculateSpeakerSeverity.
  destruct (filter isSpeakerRisk risks) as [|r0 speakers] eqn:E; [now left |].
  right. cbn [List.length Nat.eqb]. rewrite severity_scores.
  destruct (Math_max_attained (fun r => severityScore (severity r)) (r0 :: speakers))
    as (r & Hin & Hmax & Hle); [discriminate |].
  rewrite Hmax, severity_of_score. cbn [fst]. rewrite <- E in Hin, Hle.
  apply filter_In in Hin as [Hin Hr]. exists r. repeat split; try assumption.
  intros r' Hin' Hr'. apply Hle. now apply filter_In.
Qed.

Lemma speaker_imminence_cases (risks : list Risk) :
  (filter isSpeakerRisk risks = [] /\ calculateSpeakerImminence risks = not_applicable)
  \/ exists r,
       In r risks /\ isSpeakerRisk r = true
       /\ calculateSpeakerImminence risks = imminence r
       /\ forall r', In r' risks -> isSpeakerRisk r' = true ->
            imminenceScore (imminence r') <= imminenceScore (imminence r).
Proof.
  unfold calculateSpeakerImminence.
  destruct (filter isSpeakerRisk risks) as [|r0 speakers] eqn:E; [now left |].
  right. cbn [List.length Nat.eqb]. rewrite imminence_scores.
  destruct (Math_max_attained (fun r => imminenceScore (imminence r)) (r0 :: speakers))
    as (r & Hin & Hmax & Hle); [discriminate |].
  rewrite Hmax, imminence_of_score. cbn [fst]. rewrite <- E in Hin, Hle.
  apply filter_In in Hin as [Hin Hr]. exists r. repeat split; try assumption.
  intros r' Hin' Hr'. apply Hle. now apply filter_In.
Qed.

Lemma no_speaker (risks : list Risk) :
  filter isSpeakerRisk risks = [] ->
  forall r, In r risks -> isSpeakerRisk r = false.
Proof.
  intros E r Hin. destruct (isSpeakerRisk r) eqn:Hr; [| reflexivity].
  assert (H : In r (filter isSpeakerRisk risks)) by now apply filter_In.
  rewrite E in H. destruct H.
Qed.

(** X18.  [calculateSpeakerSeverity] gives the highest severity among
    the risks of the speaker (subject [self], confidence in the subject
    above 0.5): it is the severity of one of them and none of them has
    a higher score; without such a risk it gives [none]. *)
Theorem speaker_severity_is_highest (risks : list Risk) :
  (forall r, In r risks -> isSpeakerRisk r = true ->
     severityScore (severity r)
     <= severityScore (calculateSpeakerSeverity risks))
  /\ ((exists r, In r risks /\ isSpeakerRisk r = true
                 /\ severity r = calculateSpeakerSeverity risks)
      \/ (calculateSpeakerSeverity risks = none
          /\ forall r, In r risks -> isSpeakerRisk r = false)).
Proof.
  destruct (speaker_severity_cases risks) as [[E ->] | (r & Hin & Hr & -> & Hle)].
  - pose proof (no_speaker risks E) as Hnone. split; [| now right].
    intros r Hin Hr. rewrite (Hnone r Hin) in Hr. discriminate Hr.
  - split; [exact Hle | left; now exists r].
Qed.

(** X19.  [calculateSpeakerImminence] gives the highest imminence
    among the risks of the speaker, and [not_applicable] without such a
    risk. *)
Theorem speaker_imminence_is_highest (risks : list Risk) :
  (forall r, In r risks -> isSpeakerRisk r = true ->
     imminenceScore (imminence r)
     <= imminenceScore (calculateSpeakerImminence risks))
  /\ ((exists r, In r risks /\ isSpeakerRisk r = true
                 /\ imminence r = calculateSpeakerImminence risks)
      \/ (calculateSpeakerImminence risks = not_applicable
          /\ forall r, In r risks -> isSpeakerRisk r = false)).
Proof.
  destruct (speaker_imminence_cases risks) as [[E ->] | (r & Hin & Hr & -> & Hle)].
  - pose proof (no_speaker risks E) as Hnone. split; [| now right].
    intros r Hin Hr. rewrite (Hnone r Hin) in Hr. discriminate Hr.
  - split; [exact Hle | left; now exists r].
Qed.

(** The score of the result is the least bound of the scores of the
    speaker's risks that is not negative. *)
Lemma severity_score_bound (risks : list Risk) (bound : Z) :
  severityScore (calculateSpeakerSeverity risks) <= bound
  <-> 0 <= bound
      /\ forall r, In r risks -> isSpeakerRisk r = true ->
           severityScore (severity r) <= bound.
Proof.
  destruct (speaker_severity_cases risks) as [[E ->] | (r & Hin & Hr & -> & Hle)].
  - pose proof (no_speaker risks E) as Hnone. cbn. split.
    + intro H. split; [exact H |]. intros r Hin Hr.
      rewrite (Hnone r Hin) in Hr. discriminate Hr.
    + tauto.
  - split.
    + intro H. split; [pose proof (severityScore_nonneg (severity r)); lia |].
      intros r' Hin' Hr'. specialize (Hle r' Hin' Hr'). lia.
    + intros [_ H]. now apply H.
Qed.

Lemma imminence_score_bound (risks : list Risk) (bound : Z) :
  imminenceScore (calculateSpeakerImminence risks) <= bound
  <-> 0 <= bound
      /\ forall r, In r risks -> isSpeakerRisk r = true ->
           imminenceScore (imminence r) <= bound.
Proof.
  destruct (speaker_imminence_cases risks) as [[E ->] | (r & Hin & Hr & -> & Hle)].
  - pose proof (no_speaker risks E) as Hnone. cbn. split.
    + intro H. split; [exact H |]. intros r Hin Hr.
      rewrite (Hnone r Hin) in Hr. discriminate Hr.
    + tauto.
  - split.
    + intro H. split; [pose proof (imminenceScore_nonneg (imminence r)); lia |].
      intros r' Hin' Hr'. specialize (Hle r' Hin' Hr'). lia.
    + intros [_ H]. now apply H.
Qed.

(** X20.  The three functions look at which risks there are, not at
    their order or their number of copies: on two lists with the same
    members they agree. *)
Theorem same_members_same_summary (a b : list Risk) :
  (forall r, In r a <-> In r b) ->
  calculateSpeakerSeverity a = calculateSpeakerSeverity b
  /\ calculateSpeakerImminence a = calculateSpeakerImminence b
  /\ hasThirdPartyRisk a = hasThirdPartyRisk b.
Proof.
  intro Hsame. split; [| split].
  - apply severityScore_inj, Z.le_antisymm.
    + apply severity_score_bound.
      destruct (proj1 (severity_score_bound b _) (Z.le_refl _)) as [H0 H].
      split; [exact H0 |]. intros r Hin. apply H. now apply Hsame.
    + apply severity_score_bound.
      destruct (proj1 (severity_score_bound a _) (Z.le_refl _)) as [H0 H].
      split; [exact H0 |]. intros r Hin. apply H. now apply Hsame.
  - apply imminenceScore_inj, Z.le_antisymm.
    + apply imminence_score_bound.
      destruct (proj1 (imminence_score_bound b _) (Z.le_refl _)) as [H0 H].
      split; [exact H0 |]. intros r Hin. apply H. now apply Hsame.
    + apply imminence_score_bound.
      destruct (proj1 (imminence_score_bound a _) (Z.le_refl _)) as [H0 H].
      split; [exact H0 |]. intros r Hin. apply H. now apply Hsame.
  - unfold hasThirdPartyRisk.
    destruct (existsb _ a) eqn:Ea, (existsb _ b) eqn:Eb; try reflexivity.
    + apply existsb_exists in Ea as (r & Hin & Hr).
      assert (H : existsb
                    (fun r => RiskSubject_eqb (subject r) other
                              && greater (subject_confidence r) half) b = true)
        by (apply existsb_exists; exists r; split; [now apply Hsame | exact Hr]).
      congruence.
    + apply existsb_exists in Eb as (r & Hin & Hr).
      assert (H : existsb
                    (fun r => RiskSubject_eqb (subject r) other
                              && greater (subject_confidence r) half) a = true)
        by (apply existsb_exists; exists r; split; [now apply Hsame | exact Hr]).
      congruence.
Qed.

(** X21.  Over two lists of risks put together the summary is the
    higher of the two severities, the higher of the two imminences,
    and a third-party risk if either list has one. *)
Theorem summary_of_concatenation (a b : list Risk) :
  calculateSpeakerSeverity (a ++ b)
  = higherSeverity (calculateSpeakerSeverity a) (calculateSpeakerSeverity b)
  /\ calculateSpeakerImminence (a ++ b)
     = higherImminence (calculateSpeakerImminence a) (calculateSpeakerImminence b)
  /\ hasThirdPartyRisk (a ++ b) = hasThirdPartyRisk a || hasThirdPartyRisk b.
Proof.
  split; [| split].
  - apply severityScore_inj, Z.le_antisymm.
    + apply severity_score_bound.
      destruct (proj1 (severity_score_bound a _) (Z.le_refl _)) as [H0 Ha].
      destruct (proj1 (severity_score_bound b _) (Z.le_refl _)) as [_ Hb].
      unfold higherSeverity.
      destruct (Z.leb_spec (severityScore (calculateSpeakerSeverity a))
                  (severityScore (calculateSpeakerSeverity b)));
        (split; [lia |]); intros r Hin Hr;
        apply in_app_or in Hin as [Hin | Hin];
        first [specialize (Ha r Hin Hr) | specialize (Hb r Hin Hr)]; lia.
    + destruct (proj1 (severity_score_bound (a ++ b) _) (Z.le_refl _)) as [H0 H].
      unfold higherSeverity.
      destruct (Z.leb_spec (severityScore (calculateSpeakerSeverity a))
                  (severityScore (calculateSpeakerSeverity b)));
        apply severity_score_bound; (split; [exact H0 |]);
        intros r Hin; apply H, in_or_app; tauto.
  - apply imminenceScore_inj, Z.le_antisymm.
    + apply imminence_score_bound.
      destruct (proj1 (imminence_score_bound a _) (Z.le_refl _)) as [H0 Ha].
      destruct (proj1 (imminence_score_bound b _) (Z.le_refl _)) as [_ Hb].
      unfold higherImminence.
      destruct (Z.leb_spec (imminenceScore (calculateSpeakerImminence a))
                  (imminenceScore (calculateSpeakerImminence b)));
        (split; [lia |]); intros r Hin Hr;
        apply in_app_or in Hin as [Hin | Hin];
        first [specialize (Ha r Hin Hr) | specialize (Hb r Hin Hr)]; lia.
    + destruct (proj1 (imminence_score_bound (a ++ b) _) (Z.le_refl _)) as [H0 H].
      unfold higherImminence.
      destruct (Z.leb_spec (imminenceScore (calculateSpeakerImminence a))
                  (imminenceScore (calculateSpeakerImminence b)));
        apply imminence_score_bound; (split; [exact H0 |]);
        intros r Hin; apply H, in_or_app; tauto.
  - apply existsb_app.
Qed.

(** X22.  A risk whose subject is not [self], or whose confidence in
    the subject is not above 0.5 (0.5 itself and [NaN] are not), does
    not change the severity or the imminence of the speaker; a risk
    whose subject is not [other], or with such a confidence, does not
    change the third-party flag. *)
Theorem risks_that_do_not_count (r : Risk) (risks : list Risk) :
  (subject r <> self \/ greater (subject_confidence r) half = false ->
   calculateSpeakerSeverity (r :: risks) = calculateSpeakerSeverity risks
   /\ calculateSpeakerImminence (r :: risks) = calculateSpeakerImminence risks)
  /\ (subject r <> other \/ greater (subject_confidence r) half = false ->
      hasThirdPartyRisk (r :: risks) = hasThirdPartyRisk risks)
  /\ greater half half = false
  /\ greater NaN half = false.
Proof.
  split; [| split; [| split; reflexivity]].
  - intro H.
    assert (Hr : isSpeakerRisk r = false).
    { unfold isSpeakerRisk. destruct H as [H | H].
      - destruct (subject r); [congruence | reflexivity ..].
      - rewrite H. apply andb_false_r. }
    unfold calculateSpeakerSeverity, calculateSpeakerImminence.
    cbn [filter]. now rewrite Hr.
  - intro H. unfold hasThirdPartyRisk. cbn [existsb].
    replace (RiskSubject_eqb (subject r) other
             && greater (subject_confidence r) half) with false; [reflexivity |].
    destruct H as [H | H].
    + destruct (subject r); [reflexivity | congruence | reflexivity].
    + rewrite H. now rewrite andb_false_r.
Qed.

End TypesFacts.

(** ** The further properties at work on Node *)

Lemma signature_prefix_optional_witness :
  verify (host := Sample.node) 1700000000 (PString Sample.ping)
    (Some Sample2.pingHmac) (Some "1700000000") Sample.secret noOptions
  = Return Sample2.pingEvent.
Proof.
  rewrite <- (signature_prefix_optional (host := Sample.node) 1700000000
                (PString Sample.ping) Sample2.pingHmac (Some "1700000000")
                Sample.secret noOptions);
    [vm_compute; reflexivity | discriminate | reflexivity].
Defined.


Lemma freshness_off_when_not_positive_witness :
  maxAgeOf (mkOptions (Some (-1))) <= 0
  /\ ~ stale (verify (host := Sample.node) 0 (PString Sample.ping)
                (Some "sha256=00") (Some "1700000000") Sample.secret
                (mkOptions (Some (-1))))
  /\ verify (host := Sample.node) 0 (PString Sample.ping)
       (Some "sha256=00") (Some "1700000000") Sample.secret (mkOptions (Some (-1)))
     = verify (host := Sample.node) 1700000000 (PString Sample.ping)
         (Some "sha256=00") (Some "1700000000") Sample.secret
         (mkOptions (Some (-1))).
Proof.
  split; [cbn; lia |].
  apply (freshness_off_when_not_positive (host := Sample.node)). cbn. lia.
Defined.


Lemma object_and_serialized_text_agree_witness :
  sign (host := Sample.node) 1700000000 (@PObject Sample.node Sample2.pingEvent)
    Sample.secret None
  = Return (mkSigned ("sha256=" ++ Sample2.pingHmac) "1700000000")
  /\ verify (host := Sample.node) 1700000060 (@PObject Sample.node Sample2.pingEvent)
       (Some ("sha256=" ++ Sample2.pingHmac)) (Some "1700000000") Sample.secret
       noOptions
     = Return Sample2.pingEvent.
Proof.
  apply (object_and_serialized_text_agree (host := Sample.node) 1700000060
           1700000000 Sample2.pingEvent Sample.ping Sample.secret None noOptions
           (mkSigned ("sha256=" ++ Sample2.pingHmac) "1700000000")).
  - vm_compute. reflexivity.
  - discriminate.
  - cbn. lia.
  - vm_compute. reflexivity.
Defined.

Lemma signature_of_text_verifies_its_tail_witness :
  verify (host := Sample.node) 1700000000 (PString "5")
    (Some "sha256=5cb41d97adf39a34b1dd80f199e46ba169fa7bbabfc4222ef11a10c3cd4b8cbb")
    (Some "1700000000.0") Sample.secret noOptions
  = Return (JSON.VNumber 5 0).
Proof.
  exact (signature_of_text_verifies_its_tail (host := Sample.node) 1700000000
           1700000000 "0" "5" Sample.secret 1700000000 noOptions
           (mkSigned
              "sha256=5cb41d97adf39a34b1dd80f199e46ba169fa7bbabfc4222ef11a10c3cd4b8cbb"
              "1700000000")
           ltac:(discriminate) ltac:(cbn; lia) ltac:(vm_compute; reflexivity)).
Defined.

Lemma flipped_signature_rejected_witness :
  verify (host := Sample.node) 1700000000 (PString Sample.ping)
    (Some (flipAt 7 0 ("sha256=" ++ Sample2.pingHmac))) (Some "1700000000")
    Sample.secret noOptions
  = Throw (WebhookSignatureError "Signature verification failed").
Proof.
  apply (flipped_signature_rejected (host := Sample.node) 1700000000 1700000000
           (PString Sample.ping) Sample.secret (Some 1700000000) noOptions
           (mkSigned ("sha256=" ++ Sample2.pingHmac) "1700000000") 7 0).
  - discriminate.
  - cbn. lia.
  - vm_compute. reflexivity.
  - cbn. lia.
  - lia.
Defined.


Lemma sign_outcome_witness :
  JS.parseInt "1700000000" = Some 1700000000
  /\ sign (host := Sample.node) 0
       (@PObject Sample.node (JSON.VObject [("amount", JSON.VBigInt 1)]))
       Sample.secret None
     = Throw TypeError.
Proof.
  split.
  - destruct (sign_outcome (host := Sample.node) 0 (PString Sample.ping)
                Sample.secret (Some 1700000000)) as (_ & Hreturned & _).
    apply (Hreturned (mkSigned ("sha256=" ++ Sample2.pingHmac) "1700000000"));
      vm_compute; reflexivity.
  - destruct (sign_outcome (host := Sample.node) 0
                (@PObject Sample.node (JSON.VObject [("amount", JSON.VBigInt 1)]))
                Sample.secret None) as (Hthrown & _ & _).
    apply Hthrown. exists (JSON.VObject [("amount", JSON.VBigInt 1)]).
    split; [reflexivity |]. left. split; [reflexivity |].
    exists "Do not know how to serialize a BigInt". reflexivity.
Defined.

Lemma constructor_normalizes_options_witness :
  baseUrl (newNopeClient (mkClientOptions (Some "test_key")
                            (Some "http://localhost:8788/") None))
  = "http://localhost:8788"
  /\ newNopeClient (mkClientOptions (Some "test_key")
                      (Some "http://localhost:8788/") None)
     = newNopeClient (mkClientOptions (Some "test_key")
                        (Some "http://localhost:8788") None).
Proof.
  destruct (constructor_normalizes_options (Some "test_key") None
              "http://localhost:8788") as (Hbase & Hsame & _).
  split; [exact Hbase | apply Hsame; reflexivity].
Defined.


Lemma unserializable_body_is_not_sent_witness :
  evaluate (host := Sample.limited) Sample.client
    (@mkEvaluateOptions Sample.limited None (Some "hello")
       (Some (JSON.VObject [("amount", JSON.VBigInt 1)])) None) []
  = (Throw (NopeConnectionError
              "Failed to connect to https://api.nope.net: Do not know how to serialize a BigInt"
              (Some (ErrorObject "TypeError" "Do not know how to serialize a BigInt"))),
     []).
Proof.
  destruct (unserializable_body_is_not_sent (host := Sample.limited)
              Sample.client [] "Do not know how to serialize a BigInt")
    as [Hevaluate _].
  apply (Hevaluate
           (@mkEvaluateOptions Sample.limited None (Some "hello")
              (Some (JSON.VObject [("amount", JSON.VBigInt 1)])) None)).
  - cbn. split; [discriminate | reflexivity].
  - vm_compute. reflexivity.
Defined.

Lemma handleResponse_returns_iff_witness :
  (exists v, handleResponse (host := Sample.node) (mkResponse 200 [] Sample.ping)
             = Return v)
  /\ handleResponse (host := Sample.node) (mkResponse 200 [] "<html>")
     = Throw (NopeError "Invalid JSON response" (Some 200) (Some "<html>")).
Proof.
  destruct (handleResponse_returns_iff (host := Sample.node)
              (mkResponse 200 [] Sample.ping)) as (Hiff & _ & _).
  destruct (handleResponse_returns_iff (host := Sample.node)
              (mkResponse 200 [] "<html>")) as (_ & _ & Hinvalid).
  split.
  - apply Hiff. split; [cbn; lia | vm_compute; discriminate].
  - apply Hinvalid; [cbn; lia | vm_compute; reflexivity].
Defined.

Lemma thrown_error_describes_response_witness :
  (Errors.statusCode
     (NopeRateLimitError "Rate limit exceeded" (Some (Num (inject_Z 30000)))
        (Some (text Sample.tooManyRequests)))
   = Some 429
   /\ Errors.responseBody
        (NopeRateLimitError "Rate limit exceeded" (Some (Num (inject_Z 30000)))
           (Some (text Sample.tooManyRequests)))
      = Some (text Sample.tooManyRequests))
  /\ handleResponse (host := Sample.node)
       (mkResponse 500 [] (JSON.text "{'error':{'toString':1}}"))
     = Throw TypeError.
Proof.
  split.
  - destruct (thrown_error_describes_response (host := Sample.node)
                Sample.tooManyRequests) as [Hthrown _].
    destruct (Hthrown
                (NopeRateLimitError "Rate limit exceeded"
                   (Some (Num (inject_Z 30000)))
                   (Some (text Sample.tooManyRequests))))
      as [(_ & Hstatus & Hbody) | H];
      [vm_compute; reflexivity | now split | discriminate H].
  - apply (thrown_error_describes_response (host := Sample.node)
             (mkResponse 500 [] (JSON.text "{'error':{'toString':1}}"))).
    split; [cbn; lia |].
    exists (JSON.VObject [("error", JSON.VObject [("toString", JSON.VNumber 1 0)])]),
      (JSON.VObject [("toString", JSON.VNumber 1 0)]).
    repeat split; vm_compute; reflexivity.
Defined.

Lemma error_class_by_status_witness :
  (exists e,
     handleResponse (host := Sample.node)
       (mkResponse 503 [] "Service Unavailable")
     = Throw e
     /\ Errors.message e = Some "Service Unavailable"
     /\ Errors.name e = Some "NopeServerError")
  /\ exists e,
       handleResponse (host := Sample.node)
         (mkResponse 401 [] (JSON.text "{'error':['Invalid','key']}"))
       = Throw e
       /\ Errors.message e = Some "Invalid,key"
       /\ Errors.name e = Some "NopeAuthError".
Proof.
  split.
  - exact (error_class_by_status (host := Sample.node)
             (mkResponse 503 [] "Service Unavailable") ltac:(cbn; lia)).
  - exact (error_class_by_status (host := Sample.node)
             (mkResponse 401 [] (JSON.text "{'error':['Invalid','key']}"))
             ltac:(cbn; lia)).
Defined.

Lemma outcome_is_that_of_the_response_witness :
  screen (host := Sample.limited) Sample.client
    (@mkScreenOptions Sample.limited None (Some "hello") None) []
  = (handleResponse (host := Sample.limited) Sample.tooManyRequests,
     [requestOf Sample.client "POST" "/v1/screen"
        (Some (JSON.text "{'text':'hello'}"))]).
Proof.
  destruct (outcome_is_that_of_the_response (host := Sample.limited)
              Sample.client [] Sample.tooManyRequests
              (JSON.text "{'text':'hello'}")) as [_ Hscreen].
  apply Hscreen.
  - cbn. split; [discriminate | reflexivity].
  - vm_compute. reflexivity.
  - reflexivity.
Defined.

Lemma error_of_response_prints_witness :
  exists e,
    handleResponse (host := Sample.node) Sample.tooManyRequests = Throw e
    /\ Errors.toString Sample2.showIntegral e
       = Some "[429] Rate limit exceeded (retry after 30000ms)".
Proof.
  destruct (error_of_response_prints (host := Sample.node) Sample2.showIntegral
              Sample.tooManyRequests "Rate limit exceeded")
    as (e & Hthrown & _ & _ & Hhint).
  - intros n _. reflexivity.
  - cbn. lia.
  - vm_compute. reflexivity.
  - vm_compute. reflexivity.
  - exists e. split; [exact Hthrown |].
    apply (Hhint eq_refl 30); [vm_compute; reflexivity | reflexivity].
Defined.

Lemma speaker_severity_is_highest_witness :
  Types.calculateSpeakerSeverity Sample2.risks = Types.high
  /\ Types.severityScore Types.moderate
     <= Types.severityScore (Types.calculateSpeakerSeverity Sample2.risks).
Proof.
  split; [reflexivity |].
  apply (proj1 (TypesFacts.speaker_severity_is_highest Sample2.risks)
           (Sample2.speaker Types.moderate Types.urgent));
    [now left | reflexivity].
Defined.

Lemma speaker_imminence_is_highest_witness :
  Types.calculateSpeakerImminence Sample2.risks = Types.urgent
  /\ Types.imminenceScore Types.chronic
     <= Types.imminenceScore (Types.calculateSpeakerImminence Sample2.risks).
Proof.
  split; [reflexivity |].
  apply (proj1 (TypesFacts.speaker_imminence_is_highest Sample2.risks)
           (Sample2.speaker Types.high Types.chronic));
    [cbn; tauto | reflexivity].
Defined.

Lemma same_members_same_summary_witness :
  Types.calculateSpeakerSeverity
    [Sample2.speaker Types.mild Types.chronic; Sample2.thirdParty Types.high]
  = Types.calculateSpeakerSeverity
      [Sample2.thirdParty Types.high; Sample2.speaker Types.mild Types.chronic;
       Sample2.thirdParty Types.high].
Proof.
  apply (TypesFacts.same_members_same_summary
           [Sample2.speaker Types.mild Types.chronic; Sample2.thirdParty Types.high]
           [Sample2.thirdParty Types.high; Sample2.speaker Types.mild Types.chronic;
            Sample2.thirdParty Types.high]).
  intro r. cbn [In]. tauto.
Defined.

Lemma risks_that_do_not_count_witness :
  Types.calculateSpeakerSeverity
    (Sample2.uncertain Types.critical :: [Sample2.speaker Types.mild Types.chronic])
  = Types.calculateSpeakerSeverity [Sample2.speaker Types.mild Types.chronic].
Proof.
  apply (TypesFacts.risks_that_do_not_count (Sample2.uncertain Types.critical)
           [Sample2.speaker Types.mild Types.chronic]).
  right. reflexivity.
Defined.
